(** * Kubefirst-bot: the command pipeline of [index.js]

    A shallow embedding of the Probot application in [index.js]: the
    webhook payload, the calls the bot makes on the GitHub REST client
    ([context.octokit]), its log output, and the six functions
    [handlePRCommands], [checkDuplicateCommand], [approvePR],
    [checkMaintainerOrBot], [holdPR] and [unholdPR].

    An [async] function is a program tree whose nodes are the awaited
    platform calls; a call either yields its reply or rejects with an
    exception, and [try]/[catch] is a combinator on trees.  The platform
    itself is not modelled: theorems quantify over every reply it can
    give. *)

From Stdlib Require Import List String Ascii Bool Arith NArith ZArith Lia.
From Stdlib Require Import DecimalString Eqdep_dec.
Import ListNotations.

Local Open Scope string_scope.
Local Open Scope list_scope.

(** ** Data read from the platform *)

(** An element of [issues.listComments]: [comment.user.login], [comment.body]. *)
Record IssueComment := mkComment {
  comment_user_login : string;
  comment_body : string
}.

(** An element of [pulls.listReviews]: [review.user.login], [review.state]. *)
Record Review := mkReview {
  review_user_login : string;
  review_state : string
}.

(** An element of [pr.data.labels]. *)
Record Label := mkLabel { label_name : string }.

(** The part of [pulls.get]'s reply the bot reads: [pr.data.draft], [pr.data.labels]. *)
Record PullRequest := mkPull {
  pr_draft : bool;
  pr_labels : list Label
}.

(** An element of [repos.listCollaborators]. *)
Record Collaborator := mkCollaborator { collaborator_login : string }.

(** ** The webhook payload *)

Record Repository := mkRepository {
  repository_owner_login : string;
  repository_name : string
}.

(** [context.payload]: [comment] is present on [issue_comment] events only,
    [issue] likewise; [pull_request] is what [pull_request.opened] and
    [pull_request_review.submitted] carry instead. *)
Record Context := mkContext {
  payload_comment : option IssueComment;
  payload_issue : option N;
  payload_pull_request : option N;
  payload_repository : Repository
}.

(** ** Exceptions and log output *)

Inductive exn :=
| TypeError (msg : string)
| RequestError (msg : string).

(** [error.message] *)
Definition message (e : exn) : string :=
  match e with TypeError m => m | RequestError m => m end.

Inductive log_entry :=
| log_info (msg : string)
| log_error (msg : string)
| console_log (v : string)
| console_log_collaborators (v : list Collaborator).

(** ** Calls on [context.octokit] *)

(** [context.repo()] : the [owner] and [repo] parameters of every call. *)
Record RepoRef := mkRepoRef { ref_owner : string; ref_repo : string }.

Inductive request :=
| issues_createComment (r : RepoRef) (issue_number : option N) (body : string)
| issues_listComments (r : RepoRef) (issue_number : N)
| issues_addLabels (r : RepoRef) (issue_number : N) (labels : list string)
| issues_removeLabel (r : RepoRef) (issue_number : N) (name : string)
| pulls_get (r : RepoRef) (pull_number : N)
| pulls_listReviews (r : RepoRef) (pull_number : N)
| pulls_createReview (r : RepoRef) (pull_number : N) (event body : string)
| pulls_merge (r : RepoRef) (pull_number : N)
| repos_listCollaborators (r : RepoRef) (affiliation : string).

(** What the bot reads of a fulfilled call ([.data]). *)
Definition reply (c : request) : Type :=
  match c with
  | issues_listComments _ _ => list IssueComment
  | pulls_get _ _ => PullRequest
  | pulls_listReviews _ _ => list Review
  | repos_listCollaborators _ _ => list Collaborator
  | _ => unit
  end.

(** A settled promise: fulfilled with a reply, or rejected. *)
Definition settled (c : request) : Type := (reply c + exn)%type.

(** ** Programs *)

Inductive prog (A : Type) : Type :=
| Ret (a : A)
| Throw (e : exn)
| Log (l : log_entry) (k : prog A)
| Call (c : request) (k : settled c -> prog A).

Arguments Ret {A} a.
Arguments Throw {A} e.
Arguments Log {A} l k.
Arguments Call {A} c k.

Fixpoint bind {A B} (p : prog A) (f : A -> prog B) : prog B :=
  match p with
  | Ret a => f a
  | Throw e => Throw e
  | Log l k => Log l (bind k f)
  | Call c k => Call c (fun r => bind (k r) f)
  end.

(** [try { p } catch (error) { h error }] *)
Fixpoint try_catch {A} (p : prog A) (h : exn -> prog A) : prog A :=
  match p with
  | Ret a => Ret a
  | Throw e => h e
  | Log l k => Log l (try_catch k h)
  | Call c k => Call c (fun r => try_catch (k r) h)
  end.

(** [await context.octokit.<c>] *)
Definition await (c : request) : prog (reply c) :=
  Call c (fun r => match r with inl v => Ret v | inr e => Throw e end).

Definition log (l : log_entry) : prog unit := Log l (Ret tt).

(** [if (b) { p }] *)
Definition when (b : bool) (p : prog unit) : prog unit :=
  if b then p else Ret tt.

Declare Scope prog_scope.
Delimit Scope prog_scope with prog.
Notation "x <- p ;; q" := (bind p (fun x => q))
  (at level 61, p at next level, right associativity) : prog_scope.
Notation "p ;; q" := (bind p (fun _ => q))
  (at level 61, right associativity) : prog_scope.
Local Open Scope prog_scope.

(** ** Helpers of the embedding *)

(** [Array.prototype.some] with the element's index. *)
Fixpoint some_from {A} (i : nat) (f : A -> nat -> bool) (l : list A) : bool :=
  match l with
  | [] => false
  | x :: l' => f x i || some_from (S i) f l'
  end.

Definition some_idx {A} (f : A -> nat -> bool) (l : list A) : bool :=
  some_from 0 f l.

(** A number inside a template literal. *)
Definition show_N (n : N) : string := NilEmpty.string_of_uint (N.to_uint n).
Definition show_nat (n : nat) : string := NilEmpty.string_of_uint (Nat.to_uint n).

Definition context_repo (context : Context) : RepoRef :=
  mkRepoRef (repository_owner_login (payload_repository context))
            (repository_name (payload_repository context)).

(** [context.issue()]: the number of [payload.issue || payload.pull_request]. *)
Definition context_issue (context : Context) : option N :=
  match payload_issue context with
  | Some n => Some n
  | None => payload_pull_request context
  end.

(** [context.octokit.issues.createComment(context.issue({ body }))] *)
Definition createComment (context : Context) (body : string) : prog unit :=
  await (issues_createComment (context_repo context) (context_issue context) body).

(** ** The bot *)

Definition MIN_REQUIRED_APPROVALS : nat := 1.

Definition botUsername : string := "kubefirst-bot[bot]".

Definition undefined_user : exn :=
  TypeError "Cannot read properties of undefined (reading 'user')".
Definition undefined_number : exn :=
  TypeError "Cannot read properties of undefined (reading 'number')".

(** [checkDuplicateCommand], the predicate given to [comments.some]. *)
Definition same_command_earlier (comments : list IssueComment)
    (commenter commentBody : string) (comment : IssueComment) (idx : nat) : bool :=
  (comment_user_login comment =? commenter) &&
  (comment_body comment =? commentBody) &&
  negb (Z.of_nat idx =? Z.of_nat (List.length comments) - 1)%Z.

Definition checkDuplicateCommand (context : Context)
    (commenter commentBody : string) : prog bool :=
  try_catch
    (match payload_issue context with
     | None => Throw undefined_number
     | Some issue_number =>
         comments <- await (issues_listComments (context_repo context) issue_number) ;;
         Ret (some_idx (same_command_earlier comments commenter commentBody) comments)
     end)
    (fun error =>
       log (log_error ("Failed to check for duplicate command usage: " ++ message error)) ;;
       Ret false).

Definition isHeld (pr : PullRequest) : bool :=
  existsb (fun label => label_name label =? "hold") (pr_labels pr).

Definition hasAlreadyApproved (reviews : list Review) (commenter : string) : bool :=
  existsb (fun review =>
             (review_user_login review =? commenter) &&
             (review_state review =? "APPROVED")) reviews.

Definition approvedReviews (reviews : list Review) : list Review :=
  filter (fun review => review_state review =? "APPROVED") reviews.

Definition approvalCount (reviews : list Review) : nat :=
  List.length (approvedReviews reviews) + 1.

Definition held_msg : string :=
  "This PR is on hold and cannot be merged until the hold is removed.".
Definition draft_msg : string :=
  "This PR is a draft and cannot be approved. Please mark it as ready for review before approving.".
Definition already_approved_msg (commenter : string) : string :=
  "@" ++ commenter ++ ", you have already approved this PR.".
Definition review_failed_msg (error : exn) : string :=
  "❌ Failed to create an approval review: " ++ message error.
Definition merged_msg (prNumber : N) : string :=
  "✅ PR #" ++ show_N prNumber ++
  " has met the required approvals and has been merged automatically.".
Definition merge_failed_msg (error : exn) : string :=
  "❌ Failed to merge the pull request: " ++ message error.
Definition below_threshold_msg (count : nat) : string :=
  "This PR requires at least " ++ show_nat MIN_REQUIRED_APPROVALS ++
  " approvals before it can be merged. Current approvals: " ++ show_nat count ++ ".".

(** The part of [approvePR] after the approval review was created. *)
Definition merge_if_approved (context : Context) (prNumber : N)
    (reviews : list Review) : prog unit :=
  if (MIN_REQUIRED_APPROVALS <=? approvalCount reviews)%nat then
    try_catch
      (await (pulls_merge (context_repo context) prNumber) ;;
       createComment context (merged_msg prNumber))
      (fun error => createComment context (merge_failed_msg error))
  else
    createComment context (below_threshold_msg (approvalCount reviews)).

Definition approvePR (context : Context) (prNumber : N) (commenter : string)
    : prog unit :=
  pr <- await (pulls_get (context_repo context) prNumber) ;;
  reviews <- await (pulls_listReviews (context_repo context) prNumber) ;;
  if isHeld pr then createComment context held_msg
  else if pr_draft pr then createComment context draft_msg
  else if hasAlreadyApproved reviews commenter then
    createComment context (already_approved_msg commenter)
  else
    created <-
      try_catch
        (await (pulls_createReview (context_repo context) prNumber
                  "APPROVE" "Approved via /approve command.") ;;
         log (log_info ("Approval review created for PR #" ++ show_N prNumber ++
                        " via /approve command.")) ;;
         Ret true)
        (fun error => createComment context (review_failed_msg error) ;; Ret false) ;;
    if created : bool then merge_if_approved context prNumber reviews else Ret tt.

Definition checkMaintainerOrBot (context : Context) (username : string)
    : prog bool :=
  log (console_log username) ;;
  try_catch
    (let ownerusername := repository_owner_login (payload_repository context) in
     if (username =? botUsername) || (username =? ownerusername) then Ret true
     else
       collaborators <-
         await (repos_listCollaborators (context_repo context) "direct") ;;
       log (console_log_collaborators collaborators) ;;
       Ret (existsb (fun collaborator => collaborator_login collaborator =? username)
                    collaborators))
    (fun error =>
       log (log_error ("Failed to check maintainer status: " ++ message error)) ;;
       Ret false).

Definition holdPR (context : Context) (prNumber : N) : prog unit :=
  await (issues_addLabels (context_repo context) prNumber ["hold"]) ;;
  log (log_info ("PR #" ++ show_N prNumber ++ " has been placed on hold.")).

Definition unholdPR (context : Context) (prNumber : N) : prog unit :=
  try_catch
    (await (issues_removeLabel (context_repo context) prNumber "hold") ;;
     log (log_info ("PR #" ++ show_N prNumber ++
                    " has been unheld and is ready for approval.")))
    (fun error =>
       log (log_error ("Failed to remove 'hold' label from PR #" ++
                       show_N prNumber ++ ": " ++ message error))).

Definition denied_msg (commenter : string) : string :=
  "❌ @" ++ commenter ++
  ", you do not have permission to use this command. Only maintainers and the bot can use this command.".
Definition duplicate_msg (commenter : string) : string :=
  "@" ++ commenter ++ ", you have already used this command in the thread.".

(** The three [if]s that end [handlePRCommands]. *)
Definition execute_command (context : Context) (commentBody : string)
    (prNumber : N) (commenter : string) : prog unit :=
  when (commentBody =? "/approve") (approvePR context prNumber commenter) ;;
  when (commentBody =? "/hold") (holdPR context prNumber) ;;
  when (commentBody =? "/unhold") (unholdPR context prNumber).

(** [context.payload.comment ? context.payload.comment.body : ""] *)
Definition payload_commentBody (context : Context) : string :=
  match payload_comment context with
  | Some comment => comment_body comment
  | None => ""
  end.

Definition handlePRCommands (context : Context) : prog unit :=
  let commentBody := payload_commentBody context in
  let prNumber := payload_issue context in
  match payload_comment context with
  | None => Throw undefined_user
  | Some comment =>
      let commenter := comment_user_login comment in
      match prNumber with
      | None => Ret tt
      | Some prNumber =>
          if (commentBody =? "") || (prNumber =? 0)%N then Ret tt
          else if commenter =? botUsername then
            log (log_info "Ignoring comment from the bot itself to prevent infinite loop.")
          else
            isMaintainer <- checkMaintainerOrBot context commenter ;;
            if negb isMaintainer then createComment context (denied_msg commenter)
            else
              isDuplicateCommand <- checkDuplicateCommand context commenter commentBody ;;
              if isDuplicateCommand : bool then
                createComment context (duplicate_msg commenter)
              else execute_command context commentBody prNumber commenter
      end
  end.

(** ** Executions *)

(** What an observer of one invocation sees, in order: each log line, and
    each call with the way the platform settled it. *)
Inductive event :=
| EvLog (l : log_entry)
| EvCall (c : request) (r : settled c).

Inductive outcome (A : Type) : Type :=
| Returned (a : A)
| Thrown (e : exn).

Arguments Returned {A} a.
Arguments Thrown {A} e.

(** [settle r] : how an awaited call continues. *)
Definition settle {A} (r : A + exn) : outcome A :=
  match r with inl v => Returned v | inr e => Thrown e end.

(** [exec p t o]: when the platform settles the calls of [p] as recorded in
    [t], [p] performs exactly [t] and ends with [o]. *)
Fixpoint exec {A} (p : prog A) (t : list event) (o : outcome A) : Prop :=
  match p with
  | Ret a => t = [] /\ o = Returned a
  | Throw e => t = [] /\ o = Thrown e
  | Log l k => exists t', t = EvLog l :: t' /\ exec k t' o
  | Call c k => exists r t', t = EvCall c r :: t' /\ exec (k r) t' o
  end.

(** A platform is any state machine that settles each call. *)
Section Platform.

Variable World : Type.
Variable octokit : forall c : request, World -> settled c * World.

Fixpoint run {A} (p : prog A) (w : World) : outcome A * list event * World :=
  match p with
  | Ret a => (Returned a, [], w)
  | Throw e => (Thrown e, [], w)
  | Log l k =>
      let '(o, t, w') := run k w in (o, EvLog l :: t, w')
  | Call c k =>
      let '(r, w1) := octokit c w in
      let '(o, t, w2) := run (k r) w1 in
      (o, EvCall c r :: t, w2)
  end.

End Platform.

Arguments run {World} octokit {A} p w.

(** ** Classes of events *)

Definition is_createComment (e : event) : bool :=
  match e with
  | EvCall (issues_createComment _ _ _) _ => true
  | _ => false
  end.

Definition is_createReview (e : event) : bool :=
  match e with
  | EvCall (pulls_createReview _ _ _ _) _ => true
  | _ => false
  end.

Definition is_merge (e : event) : bool :=
  match e with
  | EvCall (pulls_merge _ _) _ => true
  | _ => false
  end.

Definition is_label_change (e : event) : bool :=
  match e with
  | EvCall (issues_addLabels _ _ _) _ => true
  | EvCall (issues_removeLabel _ _ _) _ => true
  | _ => false
  end.

(** A call that writes to the platform. *)
Definition is_mutation (e : event) : bool :=
  is_createComment e || is_label_change e || is_createReview e || is_merge e.

(** A call made only inside [approvePR], [holdPR] or [unholdPR]; each of
    them starts with one ([pulls.get], [issues.addLabels],
    [issues.removeLabel]). *)
Definition in_handler (e : event) : bool :=
  match e with
  | EvCall (pulls_get _ _) _ => true
  | EvCall (pulls_listReviews _ _) _ => true
  | _ => is_label_change e || is_createReview e || is_merge e
  end.

(** The body of a comment the bot posts. *)
Definition posted_body (e : event) : option string :=
  match e with
  | EvCall (issues_createComment _ _ body) _ => Some body
  | _ => None
  end.

(** The platform fulfilled the call. *)
Definition fulfilled (e : event) : bool :=
  match e with
  | EvCall _ (inl _) => true
  | _ => false
  end.

Definition review_created (e : event) : bool :=
  is_createReview e && fulfilled e.

(** What a successful [checkMaintainerOrBot] leaves in the trace: nothing
    but [console.log] for the owner and the bot, the collaborator fetch
    for everybody else. *)
Definition authorization_events (context : Context) (username : string)
    (collaborators : list Collaborator) : list event :=
  EvLog (console_log username) ::
  if (username =? botUsername) ||
     (username =? repository_owner_login (payload_repository context))
  then []
  else [EvCall (repos_listCollaborators (context_repo context) "direct")
               (inl collaborators);
        EvLog (console_log_collaborators collaborators)].

(** The specification's count, for comparison with [approvalCount]: the
    number of distinct actors with an [APPROVED] review in the snapshot. *)
Definition distinct_approvers (reviews : list Review) : nat :=
  List.length (nodup string_dec (map review_user_login (approvedReviews reviews))).

(** ** A platform to run examples on

    It answers reads from a fixed snapshot, fulfils every write unless the
    fixture says the call is rejected, and remembers the calls it got. *)
Record Fixture := mkFixture {
  fx_collaborators : list Collaborator;
  fx_comments : list IssueComment;
  fx_pull : PullRequest;
  fx_reviews : list Review;
  fx_rejects : request -> option exn
}.

Definition fixture_reply (f : Fixture) (c : request) : reply c :=
  match c return reply c with
  | issues_createComment _ _ _ => tt
  | issues_listComments _ _ => fx_comments f
  | issues_addLabels _ _ _ => tt
  | issues_removeLabel _ _ _ => tt
  | pulls_get _ _ => fx_pull f
  | pulls_listReviews _ _ => fx_reviews f
  | pulls_createReview _ _ _ _ => tt
  | pulls_merge _ _ => tt
  | repos_listCollaborators _ _ => fx_collaborators f
  end.

Definition fixture_octokit (f : Fixture) (c : request) (w : list request)
    : settled c * list request :=
  match fx_rejects f c with
  | Some e => (inr e, w ++ [c])
  | None => (inl (fixture_reply f c), w ++ [c])
  end.

Definition no_rejects : request -> option exn := fun _ => None.

(** ** Example events *)

Definition kubefirst : Repository := mkRepository "konstruct" "kubefirst".

(** [issue_comment.created] on #7 by [who] saying [text]. *)
Definition comment_event (who text : string) : Context :=
  mkContext (Some (mkComment who text)) (Some 7%N) None kubefirst.

(** [pull_request.opened] for #7: no [comment], no [issue]. *)
Definition opened_event : Context :=
  mkContext None None (Some 7%N) kubefirst.

Definition not_found : exn := RequestError "Label does not exist".

Definition bad_gateway : exn := RequestError "Bad Gateway".

Definition repo7 : RepoRef := mkRepoRef "konstruct" "kubefirst".

(** [mallory], no collaborator, writes "LGTM". *)
Definition lgtm_trace : list event :=
  [EvLog (console_log "mallory");
   EvCall (repos_listCollaborators repo7 "direct") (inl []);
   EvLog (console_log_collaborators []);
   EvCall (issues_createComment repo7 (Some 7%N) (denied_msg "mallory")) (inl tt)].

(** Collaborator [alice] approves #7, which has one label and one review
    that is no approval. *)
Definition alice_thread : list IssueComment :=
  [mkComment "bob" "please review"; mkComment "alice" "/approve"].
Definition ready_pull : PullRequest := mkPull false [mkLabel "bug"].
Definition bob_commented : list Review := [mkReview "bob" "COMMENTED"].

Definition approved_and_merged : list event :=
  [EvCall (pulls_get repo7 7) (inl ready_pull);
   EvCall (pulls_listReviews repo7 7) (inl bob_commented);
   EvCall (pulls_createReview repo7 7 "APPROVE" "Approved via /approve command.")
          (inl tt);
   EvLog (log_info "Approval review created for PR #7 via /approve command.");
   EvCall (pulls_merge repo7 7) (inl tt);
   EvCall (issues_createComment repo7 (Some 7%N)
             "✅ PR #7 has met the required approvals and has been merged automatically.")
          (inl tt)].

Definition alice_approves : list event :=
  [EvLog (console_log "alice");
   EvCall (repos_listCollaborators repo7 "direct") (inl [mkCollaborator "alice"]);
   EvLog (console_log_collaborators [mkCollaborator "alice"]);
   EvCall (issues_listComments repo7 7) (inl alice_thread)]
  ++ approved_and_merged.

(** [/approve] on a held draft: what follows [pulls.get]. *)
Definition held_pull : PullRequest := mkPull true [mkLabel "bug"; mkLabel "hold"].
Definition held_rejected : list event :=
  [EvCall (pulls_listReviews repo7 7) (inl bob_commented);
   EvCall (issues_createComment repo7 (Some 7%N) held_msg) (inl tt)].

(** [/unhold] on a pull request without the label. *)
Definition unhold_absent : list event :=
  [EvCall (issues_removeLabel repo7 7 "hold") (inr not_found);
   EvLog (log_error "Failed to remove 'hold' label from PR #7: Label does not exist")].

(** ** More classes of events *)

Definition is_call (e : event) : bool :=
  match e with
  | EvCall _ _ => true
  | EvLog _ => false
  end.


Definition is_addLabels (e : event) : bool :=
  match e with
  | EvCall (issues_addLabels _ _ _) _ => true
  | _ => false
  end.

Definition is_removeLabel (e : event) : bool :=
  match e with
  | EvCall (issues_removeLabel _ _ _) _ => true
  | _ => false
  end.


(** The repository a call addresses, and the issue or pull request number
    when it has one. *)
Definition call_target (c : request) : RepoRef * option N :=
  match c with
  | issues_createComment r n _ => (r, n)
  | issues_listComments r n => (r, Some n)
  | issues_addLabels r n _ => (r, Some n)
  | issues_removeLabel r n _ => (r, Some n)
  | pulls_get r n => (r, Some n)
  | pulls_listReviews r n => (r, Some n)
  | pulls_createReview r n _ _ => (r, Some n)
  | pulls_merge r n => (r, Some n)
  | repos_listCollaborators r _ => (r, None)
  end.

(** Every call of [t] goes to repository [r], and to number [n] if to any. *)
Definition addressed_to (r : RepoRef) (n : N) (t : list event) : Prop :=
  Forall (fun e =>
            match e with
            | EvLog _ => True
            | EvCall c _ =>
                fst (call_target c) = r /\
                (snd (call_target c) = None \/ snd (call_target c) = Some n)
            end) t.

Definition count (f : event -> bool) (t : list event) : nat :=
  List.length (filter f t).

(** ** The ways of one invocation

    [handlePRCommands] read as a case list, for the proofs about whole
    invocations ([handlePRCommands_invocation] shows that every execution
    is one of these). *)

(** The event passed the filter of line 35. *)
Definition accepted (context : Context) (comment : IssueComment) (prNumber : N) : Prop :=
  payload_comment context = Some comment /\
  comment_body comment <> "" /\
  payload_issue context = Some prNumber /\
  prNumber <> 0%N.

Inductive invocation (context : Context) : list event -> outcome unit -> Prop :=
| inv_no_comment :
    payload_comment context = None ->
    invocation context [] (Thrown undefined_user)
| inv_filtered comment :
    payload_comment context = Some comment ->
    comment_body comment = "" \/ payload_issue context = None \/
      payload_issue context = Some 0%N ->
    invocation context [] (Returned tt)
| inv_own_comment comment prNumber :
    accepted context comment prNumber ->
    comment_user_login comment = botUsername ->
    invocation context
      [EvLog (log_info "Ignoring comment from the bot itself to prevent infinite loop.")]
      (Returned tt)
| inv_denied comment prNumber t_auth r :
    accepted context comment prNumber ->
    comment_user_login comment <> botUsername ->
    exec (checkMaintainerOrBot context (comment_user_login comment))
         t_auth (Returned false) ->
    invocation context
      (t_auth ++
       [EvCall (issues_createComment (context_repo context) (Some prNumber)
                  (denied_msg (comment_user_login comment))) r])
      (settle r)
| inv_duplicate comment prNumber t_auth t_dup r :
    accepted context comment prNumber ->
    comment_user_login comment <> botUsername ->
    exec (checkMaintainerOrBot context (comment_user_login comment))
         t_auth (Returned true) ->
    exec (checkDuplicateCommand context (comment_user_login comment)
            (comment_body comment)) t_dup (Returned true) ->
    invocation context
      (t_auth ++ t_dup ++
       [EvCall (issues_createComment (context_repo context) (Some prNumber)
                  (duplicate_msg (comment_user_login comment))) r])
      (settle r)
| inv_command comment prNumber t_auth t_dup t_cmd o :
    accepted context comment prNumber ->
    comment_user_login comment <> botUsername ->
    exec (checkMaintainerOrBot context (comment_user_login comment))
         t_auth (Returned true) ->
    exec (checkDuplicateCommand context (comment_user_login comment)
            (comment_body comment)) t_dup (Returned false) ->
    exec (execute_command context (comment_body comment) prNumber
            (comment_user_login comment)) t_cmd o ->
    invocation context (t_auth ++ t_dup ++ t_cmd) o.

(** ** More example traces *)

Definition alice_authorized : list event :=
  [EvLog (console_log "alice");
   EvCall (repos_listCollaborators repo7 "direct") (inl [mkCollaborator "alice"]);
   EvLog (console_log_collaborators [mkCollaborator "alice"])].

(** [alice] repeats her [/approve]. *)
Definition alice_twice : list IssueComment :=
  [mkComment "alice" "/approve"; mkComment "alice" "/approve"].

Definition alice_repeats : list event :=
  alice_authorized ++
  [EvCall (issues_listComments repo7 7) (inl alice_twice);
   EvCall (issues_createComment repo7 (Some 7%N) (duplicate_msg "alice")) (inl tt)].

(** The platform rejects the review, the merge, the confirmation. *)
Definition review_rejected : list event :=
  [EvCall (pulls_get repo7 7) (inl ready_pull);
   EvCall (pulls_listReviews repo7 7) (inl bob_commented);
   EvCall (pulls_createReview repo7 7 "APPROVE" "Approved via /approve command.")
          (inr bad_gateway);
   EvCall (issues_createComment repo7 (Some 7%N)
             "❌ Failed to create an approval review: Bad Gateway") (inl tt)].

Definition merge_rejected : list event :=
  [EvCall (pulls_get repo7 7) (inl ready_pull);
   EvCall (pulls_listReviews repo7 7) (inl bob_commented);
   EvCall (pulls_createReview repo7 7 "APPROVE" "Approved via /approve command.")
          (inl tt);
   EvLog (log_info "Approval review created for PR #7 via /approve command.");
   EvCall (pulls_merge repo7 7) (inr bad_gateway);
   EvCall (issues_createComment repo7 (Some 7%N)
             "❌ Failed to merge the pull request: Bad Gateway") (inl tt)].

Definition confirmation_rejected : list event :=
  [EvCall (pulls_get repo7 7) (inl ready_pull);
   EvCall (pulls_listReviews repo7 7) (inl bob_commented);
   EvCall (pulls_createReview repo7 7 "APPROVE" "Approved via /approve command.")
          (inl tt);
   EvLog (log_info "Approval review created for PR #7 via /approve command.");
   EvCall (pulls_merge repo7 7) (inl tt);
   EvCall (issues_createComment repo7 (Some 7%N) (merged_msg 7)) (inr bad_gateway);
   EvCall (issues_createComment repo7 (Some 7%N)
             "❌ Failed to merge the pull request: Bad Gateway") (inl tt)].

(** The owner's [/hold], with the label added and with the call rejected. *)
Definition hold_added : list event :=
  [EvCall (issues_addLabels repo7 7 ["hold"]) (inl tt);
   EvLog (log_info "PR #7 has been placed on hold.")].


(** ** General facts about executions *)

Lemma exec_bind {A B} (p : prog A) (f : A -> prog B) t o :
  exec (bind p f) t o <->
  (exists e, exec p t (Thrown e) /\ o = Thrown e) \/
  (exists a t1 t2, exec p t1 (Returned a) /\ exec (f a) t2 o /\ t = t1 ++ t2).
Proof.
  revert t. induction p as [a | e | l k IH | c k IH]; intros t; simpl.
  - split.
    + intros H. right. exists a, [], t. auto.
    + intros [(e & [_ He] & _) | (a' & t1 & t2 & [-> Ha] & H & ->)].
      * discriminate.
      * injection Ha as <-. exact H.
  - split.
    + intros [-> ->]. left. eauto.
    + intros [(e' & [-> He] & ->) | (a' & t1 & t2 & [_ Ha] & _)].
      * injection He as ->. auto.
      * discriminate.
  - split.
    + intros (t' & -> & H). apply IH in H.
      destruct H as [(e & H & ->) | (a & t1 & t2 & H1 & H2 & ->)].
      * left. eauto.
      * right. exists a, (EvLog l :: t1), t2. eauto.
    + intros [(e & (t' & -> & H) & ->) | (a & t1 & t2 & (t' & -> & H1) & H2 & ->)].
      * exists t'. split; [reflexivity | apply IH; eauto 8].
      * exists (t' ++ t2). split; [reflexivity | apply IH; right; eauto 8].
  - split.
    + intros (r & t' & -> & H). apply IH in H.
      destruct H as [(e & H & ->) | (a & t1 & t2 & H1 & H2 & ->)].
      * left. eauto 6.
      * right. exists a, (EvCall c r :: t1), t2. eauto 6.
    + intros [(e & (r & t' & -> & H) & ->) | (a & t1 & t2 & (r & t' & -> & H1) & H2 & ->)].
      * exists r, t'. split; [reflexivity | apply IH; eauto 8].
      * exists r, (t' ++ t2). split; [reflexivity | apply IH; right; eauto 8].
Qed.

Lemma exec_try_catch {A} (p : prog A) (h : exn -> prog A) t o :
  exec (try_catch p h) t o <->
  (exists a, exec p t (Returned a) /\ o = Returned a) \/
  (exists e t1 t2, exec p t1 (Thrown e) /\ exec (h e) t2 o /\ t = t1 ++ t2).
Proof.
  revert t. induction p as [a | e | l k IH | c k IH]; intros t; simpl.
  - split.
    + intros [-> ->]. left. eauto.
    + intros [(a' & [-> Ha] & ->) | (e & t1 & t2 & [_ He] & _)].
      * injection Ha as ->. auto.
      * discriminate.
  - split.
    + intros H. right. exists e, [], t. auto.
    + intros [(a & [_ Ha] & _) | (e' & t1 & t2 & [-> He] & H & ->)].
      * discriminate.
      * injection He as <-. exact H.
  - split.
    + intros (t' & -> & H). apply IH in H.
      destruct H as [(a & H & ->) | (e & t1 & t2 & H1 & H2 & ->)].
      * left. eauto.
      * right. exists e, (EvLog l :: t1), t2. eauto.
    + intros [(a & (t' & -> & H) & ->) | (e & t1 & t2 & (t' & -> & H1) & H2 & ->)].
      * exists t'. split; [reflexivity | apply IH; eauto 8].
      * exists (t' ++ t2). split; [reflexivity | apply IH; right; eauto 8].
  - split.
    + intros (r & t' & -> & H). apply IH in H.
      destruct H as [(a & H & ->) | (e & t1 & t2 & H1 & H2 & ->)].
      * left. eauto 6.
      * right. exists e, (EvCall c r :: t1), t2. eauto 6.
    + intros [(a & (r & t' & -> & H) & ->) | (e & t1 & t2 & (r & t' & -> & H1) & H2 & ->)].
      * exists r, t'. split; [reflexivity | apply IH; eauto 8].
      * exists r, (t' ++ t2). split; [reflexivity | apply IH; right; eauto 8].
Qed.

Lemma exec_await (c : request) t o :
  exec (await c) t o <-> exists r, t = [EvCall c r] /\ o = settle r.
Proof.
  unfold await; simpl. split.
  - intros (r & t' & -> & H). exists r. destruct r; destruct H as [-> ->]; auto.
  - intros (r & -> & ->). exists r, []. destruct r; simpl; auto.
Qed.

(** Every platform produces an execution: [run] is total and what it
    returns is an execution in the sense of [exec]. *)
Lemma run_exec {World} (octokit : forall c, World -> settled c * World)
    {A} (p : prog A) (w : World) :
  exec p (snd (fst (run octokit p w))) (fst (fst (run octokit p w))).
Proof.
  revert w. induction p as [a | e | l k IH | c k IH]; intros w; simpl.
  - auto.
  - auto.
  - specialize (IH w). destruct (run octokit k w) as [[o t] w']. simpl in *. eauto.
  - destruct (octokit c w) as [r w1]. specialize (IH r w1).
    destruct (run octokit (k r) w1) as [[o t] w2]. simpl in *. eauto.
Qed.

Lemma request_eq_dec (c c' : request) : {c = c'} + {c <> c'}.
Proof.
  assert (forall a b : option N, {a = b} + {a <> b})
    by (decide equality; apply N.eq_dec).
  assert (forall a b : list string, {a = b} + {a <> b})
    by (apply list_eq_dec, string_dec).
  assert (forall a b : RepoRef, {a = b} + {a <> b})
    by (decide equality; apply string_dec).
  decide equality; auto using string_dec, N.eq_dec.
Defined.

Lemma EvCall_inj c (r r' : settled c) : EvCall c r = EvCall c r' -> r = r'.
Proof.
  intros H. injection H as H.
  apply (inj_pair2_eq_dec request request_eq_dec) in H. exact H.
Qed.

Lemma cons_EvCall_inj c (r r' : settled c) (t t' : list event) :
  EvCall c r :: t = EvCall c r' :: t' -> r = r' /\ t = t'.
Proof.
  intros H. split.
  - apply EvCall_inj. exact (f_equal (hd (EvCall c r)) H).
  - exact (f_equal (@tl event) H).
Qed.

(** The events of an execution determine its outcome. *)
Lemma exec_outcome_unique {A} (p : prog A) t o o' :
  exec p t o -> exec p t o' -> o = o'.
Proof.
  revert t. induction p as [a | e | l k IH | c k IH]; simpl; intros t.
  - intros [_ ->] [_ ->]. reflexivity.
  - intros [_ ->] [_ ->]. reflexivity.
  - intros (t1 & -> & H1) (t2 & E & H2). injection E as <-. eauto.
  - intros (r1 & t1 & -> & H1) (r2 & t2 & E & H2).
    apply cons_EvCall_inj in E. destruct E as [<- <-]. eauto.
Qed.

Lemma settled_eq_dec c (r r' : settled c) : {r = r'} + {r <> r'}.
Proof.
  assert (forall a b : exn, {a = b} + {a <> b})
    by (decide equality; apply string_dec).
  assert (forall a b : IssueComment, {a = b} + {a <> b})
    by (decide equality; apply string_dec).
  assert (forall a b : Review, {a = b} + {a <> b})
    by (decide equality; apply string_dec).
  assert (forall a b : Collaborator, {a = b} + {a <> b})
    by (decide equality; apply string_dec).
  assert (forall a b : Label, {a = b} + {a <> b})
    by (decide equality; apply string_dec).
  assert (forall a b : PullRequest, {a = b} + {a <> b})
    by (decide equality; [apply list_eq_dec; assumption | apply bool_dec]).
  assert (forall a b : unit, {a = b} + {a <> b})
    by (intros [] []; left; reflexivity).
  unfold settled in *.
  destruct c; simpl in *; decide equality; auto using list_eq_dec.
Defined.

(** The replies determine the execution: two executions of one program
    are the same, or part at a call that the platform settled in two
    ways. *)
Lemma exec_parts_at_reply {A} (p : prog A) t o t' o' :
  exec p t o -> exec p t' o' ->
  (t = t' /\ o = o') \/
  exists pre c (r r' : settled c) s s',
    r <> r' /\ t = pre ++ EvCall c r :: s /\ t' = pre ++ EvCall c r' :: s'.
Proof.
  revert t t'. induction p as [a | e | l k IH | c k IH]; simpl; intros t t'.
  - intros [-> ->] [-> ->]. auto.
  - intros [-> ->] [-> ->]. auto.
  - intros (s & -> & H) (s' & -> & H').
    destruct (IH _ _ H H') as [[-> ->] | (pre & c & r & r' & u & u' & Hr & -> & ->)].
    + auto.
    + right. exists (EvLog l :: pre), c, r, r', u, u'. auto.
  - intros (r & s & -> & H) (r' & s' & -> & H').
    destruct (settled_eq_dec c r r') as [<- | Hr].
    + destruct (IH r _ _ H H') as [[-> ->] | (pre & c' & q & q' & u & u' & Hq & -> & ->)].
      * auto.
      * right. exists (EvCall c r :: pre), c', q, q', u, u'. auto.
    + right. exists [], c, r, r', s, s'. auto.
Qed.

(** ** Case analysis of an execution

    [exec_cases H] follows the program of [H : exec p t o] call by call,
    splitting on every way a call can settle and on every test, until [t]
    and [o] are explicit. *)
Ltac exec_cases H :=
  cbn [exec bind try_catch await log when settle createComment] in H;
  lazymatch type of H with
  | exists (_ : settled _), _ =>
      let r := fresh "r" in
      let t := fresh "t" in
      destruct H as (r & t & -> & H); destruct r as [? | ?]; exec_cases H
  | exists (_ : list event), _ =>
      let t := fresh "t" in
      destruct H as (t & -> & H); exec_cases H
  | _ = [] /\ _ = _ => destruct H as [-> ->]
  | context [if ?b then _ else _] => destruct b eqn:?; exec_cases H
  | _ => idtac
  end.

(** [exec_build] proves [exec p t o] for explicit [t] and [o] by replaying
    the trace. *)
Ltac exec_build :=
  repeat (cbn [exec bind try_catch await log when settle createComment];
          lazymatch goal with
          | |- exists _, _ => eexists
          | |- _ /\ _ => split
          | |- _ = _ => reflexivity
          end).

(** [1 <= approvedReviews.length + 1] *)
Lemma threshold_met reviews :
  (MIN_REQUIRED_APPROVALS <=? approvalCount reviews)%nat = true.
Proof.
  apply Nat.leb_le. unfold MIN_REQUIRED_APPROVALS, approvalCount. lia.
Qed.

(** ** Events that are filtered out *)

(** A comment with an empty body, or an event without issue number (or
    with number 0), ends the handler at once. *)
Lemma filtered_events_halt_silently context comment :
  payload_comment context = Some comment ->
  comment_body comment = "" \/ payload_issue context = None \/
    payload_issue context = Some 0%N ->
  handlePRCommands context = Ret tt.
Proof.
  intros Hc H. unfold handlePRCommands, payload_commentBody. rewrite Hc.
  destruct H as [H | [H | H]]; rewrite H.
  - destruct (payload_issue context); reflexivity.
  - reflexivity.
  - rewrite orb_true_r. reflexivity.
Qed.

(** C2: an event whose payload has no [comment] object (every
    [pull_request.opened] and [pull_request_review.submitted] event) does
    not halt quietly: [context.payload.comment.user] is read before the
    filter, so the handler rejects with a [TypeError], on every platform
    and before any call or log line. *)
Theorem missing_comment_throws
    (issue pull_request : option N) (repository : Repository)
    (World : Type) (octokit : forall c, World -> settled c * World) (w : World) :
  handlePRCommands (mkContext None issue pull_request repository)
    = Throw undefined_user /\
  run octokit (handlePRCommands (mkContext None issue pull_request repository)) w
    = (Thrown undefined_user, [], w).
Proof. split; reflexivity. Qed.

(** ** Calls outside any [try] *)

(** C5: the rejection of [issues.addLabels] in [holdPR], of [pulls.get]
    and of [pulls.listReviews] in [approvePR] is not caught: each of them
    ends the handler with that very exception, nothing logged and no
    comment posted. *)
Theorem unwrapped_calls_propagate
    (context : Context) (prNumber : N) (commenter : string) (error : exn) :
  exec (holdPR context prNumber)
    [EvCall (issues_addLabels (context_repo context) prNumber ["hold"]) (inr error)]
    (Thrown error) /\
  exec (approvePR context prNumber commenter)
    [EvCall (pulls_get (context_repo context) prNumber) (inr error)]
    (Thrown error) /\
  forall pr,
    exec (approvePR context prNumber commenter)
      [EvCall (pulls_get (context_repo context) prNumber) (inl pr);
       EvCall (pulls_listReviews (context_repo context) prNumber) (inr error)]
      (Thrown error).
Proof.
  unfold holdPR, approvePR. repeat split; try intros pr; exec_build.
Qed.

(** The same through the whole pipeline: the owner's [/hold] on a platform
    that rejects [issues.addLabels] makes [handlePRCommands] reject. *)
Lemma hold_failure_escapes_pipeline :
  run (fixture_octokit
         (mkFixture [] [mkComment "konstruct" "/hold"] (mkPull false []) []
            (fun c => match c with
                      | issues_addLabels _ _ _ => Some not_found
                      | _ => None
                      end)))
      (handlePRCommands (comment_event "konstruct" "/hold")) []
  = (Thrown not_found,
     [EvLog (console_log "konstruct");
      EvCall (issues_listComments (mkRepoRef "konstruct" "kubefirst") 7)
             (inl [mkComment "konstruct" "/hold"]);
      EvCall (issues_addLabels (mkRepoRef "konstruct" "kubefirst") 7 ["hold"])
             (inr not_found)],
     [issues_listComments (mkRepoRef "konstruct" "kubefirst") 7;
      issues_addLabels (mkRepoRef "konstruct" "kubefirst") 7 ["hold"]]).
Proof. reflexivity. Qed.

(** ** [unholdPR] *)

(** C9: [unholdPR] makes one call, [issues.removeLabel], and one log
    entry; whether the platform removes the label or rejects the call (as
    it does when the label is absent), the handler returns normally and
    posts no comment. *)
Theorem unhold_logs_only (context : Context) (prNumber : N) t o :
  exec (unholdPR context prNumber) t o ->
  o = Returned tt /\
  Forall (fun e => is_createComment e = false) t /\
  exists r,
    t = [EvCall (issues_removeLabel (context_repo context) prNumber "hold") r;
         EvLog (match r with
                | inl _ => log_info ("PR #" ++ show_N prNumber ++
                                     " has been unheld and is ready for approval.")
                | inr error => log_error ("Failed to remove 'hold' label from PR #" ++
                                          show_N prNumber ++ ": " ++ message error)
                end)].
Proof.
  unfold unholdPR. intros H. exec_cases H.
  - repeat split; [repeat constructor | eexists (inl _); reflexivity].
  - repeat split; [repeat constructor | eexists (inr _); reflexivity].
Qed.

Lemma unhold_logs_only_witness :
  exec (unholdPR (comment_event "konstruct" "/unhold") 7) unhold_absent (Returned tt) /\
  Forall (fun e => is_createComment e = false) unhold_absent.
Proof.
  assert (exec (unholdPR (comment_event "konstruct" "/unhold") 7)
            unhold_absent (Returned tt)) as E.
  { unfold unholdPR, unhold_absent. exec_build. }
  split; [exact E |].
  exact (proj1 (proj2 (unhold_logs_only
                         (comment_event "konstruct" "/unhold") 7
                         unhold_absent (Returned tt) E))).
Defined.

(** ** [approvePR] *)

(** C10: [MIN_REQUIRED_APPROVALS] is 1 and the count is the number of
    approved reviews in the snapshot plus one, so the threshold is met
    whatever the snapshot; in every execution of [approvePR] a created
    review is followed by a call of [pulls.merge], and the comment of the
    [else] branch, "This PR requires at least ...", is never posted. *)
Theorem threshold_always_met
    (context : Context) (prNumber : N) (commenter : string) t o :
  exec (approvePR context prNumber commenter) t o ->
  (forall reviews : list Review,
     approvalCount reviews = List.length (approvedReviews reviews) + 1 /\
     1 <= approvalCount reviews /\
     MIN_REQUIRED_APPROVALS <= approvalCount reviews) /\
  (existsb review_created t = true -> existsb is_merge t = true) /\
  Forall (fun e => forall count,
            posted_body e <> Some (below_threshold_msg count)) t.
Proof.
  intros H. split.
  { intros reviews. unfold approvalCount, MIN_REQUIRED_APPROVALS. lia. }
  unfold approvePR, merge_if_approved in H. exec_cases H;
    try match goal with
        | E : (MIN_REQUIRED_APPROVALS <=? approvalCount ?r)%nat = false |- _ =>
            rewrite threshold_met in E; discriminate E
        end;
    (split; [cbn; congruence |]);
    repeat constructor; cbn; intros; discriminate.
Qed.

(** C6: once the pull request and its reviews are fetched, [approvePR]
    tests the hold label, then the draft flag, then an [APPROVED] review
    by the commenter; the first test that fires posts its comment, which
    is the last thing the handler does, and only when none fires is
    [pulls.createReview] called.  For a pull request with the [hold] label
    no execution calls [pulls.createReview] or [pulls.merge]. *)
Theorem approve_preconditions_in_order
    (context : Context) (prNumber : N) (commenter : string)
    (pr : PullRequest) t o :
  exec (approvePR context prNumber commenter)
    (EvCall (pulls_get (context_repo context) prNumber) (inl pr) :: t) o ->
  (isHeld pr = true ->
   Forall (fun e => is_createReview e = false /\ is_merge e = false) t) /\
  forall (reviews : list Review) rest,
    t = EvCall (pulls_listReviews (context_repo context) prNumber) (inl reviews)
        :: rest ->
    let rejected body :=
      exists r, rest = [EvCall (issues_createComment (context_repo context)
                                  (context_issue context) body) r]
                /\ o = settle r in
    (isHeld pr = true -> rejected held_msg) /\
    (isHeld pr = false -> pr_draft pr = true -> rejected draft_msg) /\
    (isHeld pr = false -> pr_draft pr = false ->
     hasAlreadyApproved reviews commenter = true ->
     rejected (already_approved_msg commenter)) /\
    (isHeld pr = false -> pr_draft pr = false ->
     hasAlreadyApproved reviews commenter = false ->
     exists r rest',
       rest = EvCall (pulls_createReview (context_repo context) prNumber
                        "APPROVE" "Approved via /approve command.") r :: rest').
Proof.
  intros H. unfold approvePR in H.
  cbn [exec bind await] in H. destruct H as (r & t' & E & H).
  apply cons_EvCall_inj in E. destruct E as [<- <-].
  split.
  - intros Hheld. exec_cases H; try congruence; repeat constructor.
  - intros reviews rest -> rejected.
    cbn [exec bind await] in H. destruct H as (r & t' & E & H).
    apply cons_EvCall_inj in E. destruct E as [<- <-].
    cbn [bind] in H. subst rejected.
    destruct (isHeld pr); [| destruct (pr_draft pr);
      [| destruct (hasAlreadyApproved reviews commenter)]];
      repeat split; try discriminate; intros; exec_cases H; eauto.
Qed.

(** ** [checkDuplicateCommand] *)

Lemma some_from_true {A} (f : A -> nat -> bool) (l : list A) (i : nat) :
  some_from i f l = true <->
  exists j x, nth_error l j = Some x /\ f x (i + j) = true.
Proof.
  revert i. induction l as [| a l IH]; intros i; simpl.
  - split; [discriminate | intros ([| j] & x & H & _); discriminate].
  - rewrite orb_true_iff, IH. split.
    + intros [H | (j & x & Hj & H)].
      * exists 0, a. rewrite Nat.add_0_r. auto.
      * exists (S j), x. rewrite Nat.add_succ_r. auto.
    + intros ([| j] & x & Hj & H); simpl in Hj.
      * injection Hj as <-. rewrite Nat.add_0_r in H. auto.
      * right. exists j, x. rewrite Nat.add_succ_r in H. auto.
Qed.

(** What [comments.some(...)] in [checkDuplicateCommand] decides. *)
Lemma some_same_command_earlier comments commenter commentBody :
  some_idx (same_command_earlier comments commenter commentBody) comments = true <->
  exists i comment,
    i < List.length comments - 1 /\
    nth_error comments i = Some comment /\
    comment_user_login comment = commenter /\
    comment_body comment = commentBody.
Proof.
  unfold some_idx. rewrite some_from_true. unfold same_command_earlier.
  split.
  - intros (j & x & Hj & H). simpl in H.
    apply andb_true_iff in H. destruct H as [H Hidx].
    apply andb_true_iff in H. destruct H as [Hu Hb].
    apply String.eqb_eq in Hu, Hb. apply negb_true_iff, Z.eqb_neq in Hidx.
    assert (j < List.length comments) by (apply nth_error_Some; congruence).
    exists j, x. repeat split; auto. lia.
  - intros (i & x & Hi & Hx & Hu & Hb). exists i, x. split; [exact Hx |].
    simpl. apply String.eqb_eq in Hu, Hb. rewrite Hu, Hb. simpl.
    apply negb_true_iff, Z.eqb_neq. lia.
Qed.

(** C8: on a thread that ends with the triggering comment,
    [checkDuplicateCommand] answers [true] exactly when a comment at an
    index below the last one has the same author and the same body;
    [===] on strings is equality of the character sequences. *)
Theorem duplicate_iff_earlier_same_comment
    (context : Context) (issue_number : N)
    (earlier : list IssueComment) (trigger : IssueComment) :
  payload_issue context = Some issue_number ->
  exists isDuplicate : bool,
    exec (checkDuplicateCommand context
            (comment_user_login trigger) (comment_body trigger))
      [EvCall (issues_listComments (context_repo context) issue_number)
              (inl (earlier ++ [trigger]))]
      (Returned isDuplicate) /\
    (isDuplicate = true <->
     exists i comment,
       i < List.length earlier /\
       nth_error (earlier ++ [trigger]) i = Some comment /\
       comment_user_login comment = comment_user_login trigger /\
       comment_body comment = comment_body trigger).
Proof.
  intros Hissue. eexists. split.
  - unfold checkDuplicateCommand. rewrite Hissue. exec_build.
  - rewrite some_same_command_earlier.
    rewrite length_app. simpl. rewrite Nat.add_sub. reflexivity.
Qed.

(** Case, trailing blanks and the author all matter; the trigger itself,
    last in the thread, does not count. *)
Lemma duplicate_check_is_exact :
  let thread := [mkComment "alice" "/Approve"; mkComment "alice" "/approve ";
                 mkComment "bob" "/approve"; mkComment "alice" "/approve"] in
  some_idx (same_command_earlier thread "alice" "/approve") thread = false /\
  some_idx (same_command_earlier (mkComment "alice" "/approve" :: thread)
              "alice" "/approve")
           (mkComment "alice" "/approve" :: thread) = true.
Proof. split; reflexivity. Qed.

(** ** The approval count *)

Lemma nodup_length_le {A} (dec : forall x y : A, {x = y} + {x <> y}) (l : list A) :
  List.length (nodup dec l) <= List.length l.
Proof.
  induction l as [| a l IH]; simpl; [lia |].
  destruct (in_dec dec a l); simpl; lia.
Qed.

Lemma nodup_length_eq {A} (dec : forall x y : A, {x = y} + {x <> y}) (l : list A) :
  List.length (nodup dec l) = List.length l <-> NoDup l.
Proof.
  split.
  - induction l as [| a l IH]; simpl; intros H; [constructor |].
    destruct (in_dec dec a l) as [Hin | Hin]; simpl in H.
    + pose proof (nodup_length_le dec l). lia.
    + constructor; [exact Hin | apply IH; lia].
  - intros H. rewrite (nodup_fixed_point dec H). reflexivity.
Qed.

(** C4 as it is written does not hold: two approved reviews of one actor
    count twice. *)
Lemma approvalCount_counts_twice :
  let reviews := [mkReview "alice" "APPROVED"; mkReview "alice" "APPROVED"] in
  approvalCount reviews = 3 /\
  distinct_approvers reviews + 1 = 2 /\
  approvalCount reviews <> distinct_approvers reviews + 1.
Proof. repeat split. discriminate. Qed.

(** C4, amended: the approval count is the number of reviews of the
    snapshot whose state is [APPROVED], one per review, plus one.  It is
    never below the number of distinct approving actors plus one, and
    equals it exactly when no actor has two approved reviews in the
    snapshot. *)
Theorem approvalCount_counts_reviews (reviews : list Review) :
  approvalCount reviews =
    count_occ string_dec (map review_state reviews) "APPROVED" + 1 /\
  distinct_approvers reviews + 1 <= approvalCount reviews /\
  (approvalCount reviews = distinct_approvers reviews + 1 <->
   NoDup (map review_user_login (approvedReviews reviews))).
Proof.
  unfold approvalCount, distinct_approvers. repeat split.
  - f_equal. unfold approvedReviews.
    induction reviews as [| r reviews IH]; simpl; [reflexivity |].
    destruct (string_dec (review_state r) "APPROVED") as [E | E].
    + apply String.eqb_eq in E. rewrite E. simpl. f_equal. exact IH.
    + apply String.eqb_neq in E. rewrite E. exact IH.
  - pose proof (nodup_length_le string_dec
                  (map review_user_login (approvedReviews reviews))) as H.
    rewrite length_map in H. lia.
  - intros H. apply (nodup_length_eq string_dec). rewrite length_map. lia.
  - intros H. apply (nodup_length_eq string_dec) in H.
    rewrite length_map in H. lia.
Qed.

(** ** The pipeline of [handlePRCommands] *)

(** C1 as it is written does not hold: a comment that is no command, from
    somebody who is neither owner nor collaborator, is answered with the
    permission comment. *)
Lemma non_command_gets_a_comment :
  payload_commentBody (comment_event "mallory" "LGTM") <> "/approve" /\
  payload_commentBody (comment_event "mallory" "LGTM") <> "/hold" /\
  payload_commentBody (comment_event "mallory" "LGTM") <> "/unhold" /\
  run (fixture_octokit
         (mkFixture [] [mkComment "mallory" "LGTM"] (mkPull false []) [] no_rejects))
      (handlePRCommands (comment_event "mallory" "LGTM")) []
  = (Returned tt,
     [EvLog (console_log "mallory");
      EvCall (repos_listCollaborators (mkRepoRef "konstruct" "kubefirst") "direct")
             (inl []);
      EvLog (console_log_collaborators []);
      EvCall (issues_createComment (mkRepoRef "konstruct" "kubefirst") (Some 7%N)
                (denied_msg "mallory")) (inl tt)],
     [repos_listCollaborators (mkRepoRef "konstruct" "kubefirst") "direct";
      issues_createComment (mkRepoRef "konstruct" "kubefirst") (Some 7%N)
        (denied_msg "mallory")]) /\
  is_mutation
    (EvCall (issues_createComment (mkRepoRef "konstruct" "kubefirst") (Some 7%N)
               (denied_msg "mallory")) (inl tt)) = true.
Proof. repeat split; discriminate. Qed.

(** C1, amended: for a comment body other than [/approve], [/hold] and
    [/unhold], no call of [approvePR], [holdPR] or [unholdPR] is made, so
    no label changes, no review is created and nothing is merged; at most
    one comment is posted, and it is the permission comment or the
    duplicate comment of the pipeline. *)
Theorem non_command_reaches_no_handler (context : Context) t o :
  exec (handlePRCommands context) t o ->
  payload_commentBody context <> "/approve" ->
  payload_commentBody context <> "/hold" ->
  payload_commentBody context <> "/unhold" ->
  Forall (fun e => in_handler e = false) t /\
  List.length (filter is_createComment t) <= 1 /\
  Forall (fun e => forall body, posted_body e = Some body ->
            exists comment,
              payload_comment context = Some comment /\
              (body = denied_msg (comment_user_login comment) \/
               body = duplicate_msg (comment_user_login comment))) t.
Proof.
  intros H Ha Hh Hu.
  apply String.eqb_neq in Ha, Hh, Hu.
  unfold handlePRCommands, execute_command in H. cbv zeta in H.
  rewrite Ha, Hh, Hu in H.
  destruct (payload_comment context) as [comment |] eqn:Hc;
    [| destruct H as [-> ->]; repeat split; first [cbn; lia | constructor]].
  destruct (payload_issue context) as [prNumber |] eqn:Hi;
    [| destruct H as [-> ->]; repeat split; first [cbn; lia | constructor]].
  unfold checkMaintainerOrBot, checkDuplicateCommand in H. rewrite Hi in H.
  exec_cases H;
    (split; [repeat constructor | split; [cbn; lia |]]);
    repeat constructor; cbn; intros body E; try discriminate E;
    injection E as <-; eauto.
Qed.

(** *** How the pipeline is built from its parts *)

Lemma exec_then_ret {A} (p : prog unit) (q : prog A) (a : A) t o :
  exec p t o ->
  exec q [] (Returned a) ->
  exec (p ;; q) t (match o with Returned _ => Returned a | Thrown e => Thrown e end).
Proof.
  intros Hp Hq. apply exec_bind. destruct o as [[] | e].
  - right. exists tt, t, []. rewrite app_nil_r. auto.
  - left. eauto.
Qed.

(** A command reaches its handler, and only that one. *)
Lemma execute_command_approve context prNumber commenter t o :
  exec (approvePR context prNumber commenter) t o ->
  exec (execute_command context "/approve" prNumber commenter) t o.
Proof.
  intros H. unfold execute_command. cbn [String.eqb Ascii.eqb Bool.eqb when].
  pose proof (exec_then_ret _ (Ret tt ;; Ret tt) tt t o H) as E.
  destruct o as [[] | e]; apply E; cbn; auto.
Qed.

Lemma execute_command_hold context prNumber commenter t o :
  exec (holdPR context prNumber) t o ->
  exec (execute_command context "/hold" prNumber commenter) t o.
Proof.
  intros H. unfold execute_command. cbn [String.eqb Ascii.eqb Bool.eqb when bind].
  pose proof (exec_then_ret _ (Ret tt) tt t o H) as E.
  destruct o as [[] | e]; apply E; cbn; auto.
Qed.

Lemma execute_command_unhold context prNumber commenter t o :
  exec (unholdPR context prNumber) t o ->
  exec (execute_command context "/unhold" prNumber commenter) t o.
Proof.
  intros H. unfold execute_command. cbn [String.eqb Ascii.eqb Bool.eqb when bind].
  exact H.
Qed.

Lemma checkMaintainerOrBot_authorized context username collaborators :
  username = repository_owner_login (payload_repository context) \/
  In username (map collaborator_login collaborators) ->
  exec (checkMaintainerOrBot context username)
       (authorization_events context username collaborators) (Returned true).
Proof.
  intros H. unfold checkMaintainerOrBot, authorization_events.
  destruct ((username =? botUsername) ||
            (username =? repository_owner_login (payload_repository context)))
    eqn:E.
  - exec_build.
  - destruct H as [H | H].
    + apply String.eqb_eq in H. rewrite H, orb_true_r in E. discriminate.
    + replace (@Returned bool true)
        with (Returned (existsb (fun collaborator =>
                                   collaborator_login collaborator =? username)
                          collaborators)).
      * exec_build.
      * f_equal. apply existsb_exists. apply in_map_iff in H.
        destruct H as (c & Hc & Hin). exists c. split; [exact Hin |].
        apply String.eqb_eq. exact Hc.
Qed.

(** An authorized, non-duplicate command: the pipeline is the two checks
    followed by the command. *)
Lemma pipeline_reaches_command
    context comment prNumber collaborators (fetched : settled
      (issues_listComments (context_repo context) prNumber)) t o :
  payload_comment context = Some comment ->
  comment_body comment <> "" ->
  payload_issue context = Some prNumber ->
  prNumber <> 0%N ->
  comment_user_login comment <> botUsername ->
  comment_user_login comment = repository_owner_login (payload_repository context) \/
    In (comment_user_login comment) (map collaborator_login collaborators) ->
  exec (checkDuplicateCommand context (comment_user_login comment) (comment_body comment))
       (EvCall (issues_listComments (context_repo context) prNumber) fetched ::
        match fetched with
        | inl _ => []
        | inr error =>
            [EvLog (log_error ("Failed to check for duplicate command usage: " ++
                               message error))]
        end)
       (Returned false) ->
  exec (execute_command context (comment_body comment) prNumber
          (comment_user_login comment)) t o ->
  exec (handlePRCommands context)
       (authorization_events context (comment_user_login comment) collaborators ++
        (EvCall (issues_listComments (context_repo context) prNumber) fetched ::
         match fetched with
         | inl _ => []
         | inr error =>
             [EvLog (log_error ("Failed to check for duplicate command usage: " ++
                                message error))]
         end) ++ t)
       o.
Proof.
  intros Hc Hbody Hi Hn Hbot Hauth Hdup Hcmd.
  unfold handlePRCommands, payload_commentBody. rewrite Hc, Hi. cbv zeta.
  apply String.eqb_neq in Hbody, Hbot. apply N.eqb_neq in Hn.
  rewrite Hbody, Hn, Hbot. cbn [orb].
  apply exec_bind. right. eexists true, _, _. split; [| split; [| reflexivity]].
  - apply checkMaintainerOrBot_authorized. exact Hauth.
  - cbn [negb]. apply exec_bind. right. eexists false, _, _.
    split; [exact Hdup | split; [exact Hcmd | reflexivity]].
Qed.

Lemma isHeld_false pr :
  (forall label, In label (pr_labels pr) -> label_name label <> "hold") ->
  isHeld pr = false.
Proof.
  intros H. unfold isHeld. apply not_true_is_false. intros E.
  apply existsb_exists in E. destruct E as (label & Hin & E).
  apply String.eqb_eq in E. exact (H label Hin E).
Qed.

Lemma approvedReviews_nil reviews :
  (forall review, In review reviews -> review_state review <> "APPROVED") ->
  approvedReviews reviews = [] /\
  forall commenter, hasAlreadyApproved reviews commenter = false.
Proof.
  intros H. split.
  - unfold approvedReviews. induction reviews as [| r reviews IH]; simpl; [reflexivity |].
    assert (review_state r <> "APPROVED") as E by (apply H; left; reflexivity).
    apply String.eqb_neq in E. rewrite E. apply IH. intros; apply H; right; assumption.
  - intros commenter. unfold hasAlreadyApproved. apply not_true_is_false. intros E.
    apply existsb_exists in E. destruct E as (r & Hin & E).
    apply andb_true_iff in E. destruct E as [_ E].
    apply String.eqb_eq in E. exact (H r Hin E).
Qed.

(** C3: with the threshold of 1, [/approve] from the owner or a
    collaborator, not used before in the thread, on a pull request that is
    no draft, has no [hold] label and no approved review: when the
    platform fulfils every call, the pipeline creates one review, counts 1
    approval, merges, and posts the confirmation with the number of the
    pull request. *)
Theorem approve_scenario
    (context : Context) (comment : IssueComment) (prNumber : N)
    (collaborators : list Collaborator) (comments : list IssueComment)
    (pr : PullRequest) (reviews : list Review) :
  payload_comment context = Some comment ->
  comment_body comment = "/approve" ->
  payload_issue context = Some prNumber ->
  prNumber <> 0%N ->
  comment_user_login comment <> botUsername ->
  comment_user_login comment = repository_owner_login (payload_repository context) \/
    In (comment_user_login comment) (map collaborator_login collaborators) ->
  ~ (exists i earlier,
       i < List.length comments - 1 /\
       nth_error comments i = Some earlier /\
       comment_user_login earlier = comment_user_login comment /\
       comment_body earlier = "/approve") ->
  pr_draft pr = false ->
  (forall label, In label (pr_labels pr) -> label_name label <> "hold") ->
  (forall review, In review reviews -> review_state review <> "APPROVED") ->
  MIN_REQUIRED_APPROVALS = 1 /\
  approvalCount reviews = 1 /\
  exec (handlePRCommands context)
    (authorization_events context (comment_user_login comment) collaborators ++
     [EvCall (issues_listComments (context_repo context) prNumber) (inl comments);
      EvCall (pulls_get (context_repo context) prNumber) (inl pr);
      EvCall (pulls_listReviews (context_repo context) prNumber) (inl reviews);
      EvCall (pulls_createReview (context_repo context) prNumber
                "APPROVE" "Approved via /approve command.") (inl tt);
      EvLog (log_info ("Approval review created for PR #" ++ show_N prNumber ++
                       " via /approve command."));
      EvCall (pulls_merge (context_repo context) prNumber) (inl tt);
      EvCall (issues_createComment (context_repo context) (Some prNumber)
                ("✅ PR #" ++ show_N prNumber ++
                 " has met the required approvals and has been merged automatically."))
             (inl tt)])
    (Returned tt).
Proof.
  intros Hc Hbody Hi Hn Hbot Hauth Hdup Hdraft Hhold Hrev.
  apply isHeld_false in Hhold. apply approvedReviews_nil in Hrev.
  destruct Hrev as [Hnil Hnot].
  split; [reflexivity |]. split; [unfold approvalCount; rewrite Hnil; reflexivity |].
  change (?a ++ ?x :: ?t) with (a ++ (x :: @nil event) ++ t).
  apply (pipeline_reaches_command context comment prNumber collaborators (inl comments));
    auto.
  - rewrite Hbody. discriminate.
  - unfold checkDuplicateCommand. rewrite Hi, Hbody.
    replace (@Returned bool false)
      with (Returned (some_idx (same_command_earlier comments
                                  (comment_user_login comment) "/approve") comments)).
    + exec_build.
    + f_equal. apply not_true_is_false. intros E.
      apply some_same_command_earlier in E. exact (Hdup E).
  - rewrite Hbody. apply execute_command_approve.
    unfold approvePR, merge_if_approved, createComment, context_issue. rewrite Hi.
    cbn [exec bind await]. do 2 eexists. split; [reflexivity |].
    cbn [exec bind await]. do 2 eexists. split; [reflexivity |].
    cbn [bind]. rewrite Hhold, Hdraft, Hnot, threshold_met. exec_build.
Qed.

(** C7: a rejected collaborator fetch makes [checkMaintainerOrBot] answer
    [false]: the pipeline posts the permission comment and stops there.  A
    rejected comment fetch makes [checkDuplicateCommand] answer [false] as
    well, which here lets the pipeline go on: what follows is the handler
    of the command.  Both failures are logged and neither is thrown. *)
Theorem fetch_failure_policies
    (context : Context) (comment : IssueComment) (prNumber : N) (error : exn) :
  payload_comment context = Some comment ->
  comment_body comment <> "" ->
  payload_issue context = Some prNumber ->
  prNumber <> 0%N ->
  comment_user_login comment <> botUsername ->
  let commenter := comment_user_login comment in
  let collaborators_failed :=
    [EvLog (console_log commenter);
     EvCall (repos_listCollaborators (context_repo context) "direct") (inr error);
     EvLog (log_error ("Failed to check maintainer status: " ++ message error))] in
  let comments_failed :=
    [EvCall (issues_listComments (context_repo context) prNumber) (inr error);
     EvLog (log_error ("Failed to check for duplicate command usage: " ++
                       message error))] in
  (commenter <> repository_owner_login (payload_repository context) ->
   exec (checkMaintainerOrBot context commenter) collaborators_failed (Returned false) /\
   forall r,
     exec (handlePRCommands context)
       (collaborators_failed ++
        [EvCall (issues_createComment (context_repo context) (Some prNumber)
                   (denied_msg commenter)) r])
       (settle r)) /\
  exec (checkDuplicateCommand context commenter (comment_body comment))
       comments_failed (Returned false) /\
  forall collaborators t o,
    commenter = repository_owner_login (payload_repository context) \/
      In commenter (map collaborator_login collaborators) ->
    let continues handler :=
      exec handler t o ->
      exec (handlePRCommands context)
        (authorization_events context commenter collaborators ++
         comments_failed ++ t) o in
    (comment_body comment = "/approve" ->
     continues (approvePR context prNumber commenter)) /\
    (comment_body comment = "/hold" -> continues (holdPR context prNumber)) /\
    (comment_body comment = "/unhold" -> continues (unholdPR context prNumber)).
Proof.
  intros Hc Hbody Hi Hn Hbot commenter collaborators_failed comments_failed.
  assert (exec (checkDuplicateCommand context commenter (comment_body comment))
            comments_failed (Returned false)) as Hopen.
  { unfold checkDuplicateCommand. rewrite Hi. exec_build. }
  split; [| split; [exact Hopen |]].
  - intros Howner.
    assert ((commenter =? botUsername) ||
            (commenter =? repository_owner_login (payload_repository context))
            = false) as E.
    { apply orb_false_iff. split; apply String.eqb_neq; assumption. }
    assert (exec (checkMaintainerOrBot context commenter) collaborators_failed
              (Returned false)) as Hclosed.
    { unfold checkMaintainerOrBot. cbv zeta. rewrite E. exec_build. }
    split; [exact Hclosed |]. intros r.
    unfold handlePRCommands, payload_commentBody. rewrite Hc, Hi. cbv zeta.
    apply String.eqb_neq in Hbody, Hbot. apply N.eqb_neq in Hn.
    rewrite Hbody, Hn, Hbot. cbn [orb].
    apply exec_bind. right. eexists false, _, _.
    split; [exact Hclosed | split; [| reflexivity]].
    cbn [negb]. unfold createComment, context_issue. rewrite Hi.
    apply exec_await. eauto.
  - intros collaborators t o Hauth continues. subst continues.
    repeat split; intros Hcmd H;
      apply (pipeline_reaches_command context comment prNumber collaborators
               (inr error)); auto; rewrite Hcmd.
    + apply execute_command_approve, H.
    + apply execute_command_hold, H.
    + apply execute_command_unhold, H.
Qed.

(** [/unhold] through the whole pipeline: after the two checks the only
    call is [issues.removeLabel]; however it settles, one line is logged,
    no comment is posted and the pipeline returns. *)
Lemma unhold_scenario
    (context : Context) (comment : IssueComment) (prNumber : N)
    (collaborators : list Collaborator) (comments : list IssueComment)
    (r : settled (issues_removeLabel (context_repo context) prNumber "hold")) :
  payload_comment context = Some comment ->
  comment_body comment = "/unhold" ->
  payload_issue context = Some prNumber ->
  prNumber <> 0%N ->
  comment_user_login comment <> botUsername ->
  comment_user_login comment = repository_owner_login (payload_repository context) \/
    In (comment_user_login comment) (map collaborator_login collaborators) ->
  some_idx (same_command_earlier comments (comment_user_login comment) "/unhold")
           comments = false ->
  exec (handlePRCommands context)
    (authorization_events context (comment_user_login comment) collaborators ++
     [EvCall (issues_listComments (context_repo context) prNumber) (inl comments)] ++
     [EvCall (issues_removeLabel (context_repo context) prNumber "hold") r;
      EvLog (match r with
             | inl _ => log_info ("PR #" ++ show_N prNumber ++
                                  " has been unheld and is ready for approval.")
             | inr error => log_error ("Failed to remove 'hold' label from PR #" ++
                                       show_N prNumber ++ ": " ++ message error)
             end)])
    (Returned tt).
Proof.
  intros Hc Hbody Hi Hn Hbot Hauth Hdup.
  apply (pipeline_reaches_command context comment prNumber collaborators (inl comments));
    auto.
  - rewrite Hbody. discriminate.
  - unfold checkDuplicateCommand. rewrite Hi, Hbody.
    replace (@Returned bool false)
      with (Returned (some_idx (same_command_earlier comments
                                  (comment_user_login comment) "/unhold") comments))
      by (f_equal; exact Hdup).
    exec_build.
  - rewrite Hbody. apply execute_command_unhold. unfold unholdPR.
    destruct r; exec_build.
Qed.

(** A [pull_request.opened] event, delivered to [handlePRCommands] like
    the comment events, on a platform that rejects nothing. *)
Lemma opened_event_throws :
  run (fixture_octokit (mkFixture [] [] ready_pull [] no_rejects))
      (handlePRCommands opened_event) []
  = (Thrown (TypeError "Cannot read properties of undefined (reading 'user')"),
     [], []).
Proof. reflexivity. Qed.

(** ** The claims at the example events *)

(** Proves [exec p t o] for a closed program and an explicit trace. *)
Ltac exec_replay :=
  repeat (cbn;
          lazymatch goal with
          | |- exists _, _ => eexists
          | |- _ /\ _ => split
          | |- _ = _ => reflexivity
          end).

Lemma lgtm_exec :
  exec (handlePRCommands (comment_event "mallory" "LGTM")) lgtm_trace (Returned tt).
Proof. unfold lgtm_trace. exec_replay. Qed.

Lemma non_command_reaches_no_handler_witness :
  Forall (fun e => in_handler e = false) lgtm_trace /\
  List.length (filter is_createComment lgtm_trace) <= 1.
Proof.
  destruct (non_command_reaches_no_handler
              (comment_event "mallory" "LGTM") lgtm_trace (Returned tt))
    as (H1 & H2 & _).
  - exact lgtm_exec.
  - discriminate.
  - discriminate.
  - discriminate.
  - split; assumption.
Defined.

Lemma approve_scenario_witness :
  approvalCount bob_commented = 1 /\
  exec (handlePRCommands (comment_event "alice" "/approve"))
       alice_approves (Returned tt).
Proof.
  apply (approve_scenario (comment_event "alice" "/approve")
           (mkComment "alice" "/approve") 7 [mkCollaborator "alice"]
           alice_thread ready_pull bob_commented).
  - reflexivity.
  - reflexivity.
  - reflexivity.
  - discriminate.
  - discriminate.
  - right. simpl. auto.
  - intros ([| i] & earlier & Hi & Hnth & Huser & _).
    + injection Hnth as <-. discriminate Huser.
    + simpl in Hi. lia.
  - reflexivity.
  - intros label [<- | []]. discriminate.
  - intros review [<- | []]. discriminate.
Defined.

Lemma approved_and_merged_exec :
  exec (approvePR (comment_event "alice" "/approve") 7 "alice")
       approved_and_merged (Returned tt).
Proof. unfold approved_and_merged. exec_replay. Qed.

Lemma threshold_always_met_witness :
  existsb review_created approved_and_merged = true /\
  existsb is_merge approved_and_merged = true.
Proof.
  split; [reflexivity |].
  apply (proj1 (proj2 (threshold_always_met
                         (comment_event "alice" "/approve") 7 "alice"
                         approved_and_merged (Returned tt)
                         approved_and_merged_exec))).
  reflexivity.
Defined.

Lemma held_rejected_exec :
  exec (approvePR (comment_event "alice" "/approve") 7 "alice")
       (EvCall (pulls_get repo7 7) (inl held_pull) :: held_rejected) (Returned tt).
Proof. unfold held_rejected. exec_replay. Qed.

Lemma approve_preconditions_in_order_witness :
  Forall (fun e => is_createReview e = false /\ is_merge e = false) held_rejected.
Proof.
  apply (proj1 (approve_preconditions_in_order
                  (comment_event "alice" "/approve") 7 "alice" held_pull
                  held_rejected (Returned tt) held_rejected_exec)).
  reflexivity.
Defined.

Lemma fetch_failure_policies_witness :
  exec (checkDuplicateCommand (comment_event "alice" "/hold") "alice" "/hold")
       [EvCall (issues_listComments repo7 7) (inr bad_gateway);
        EvLog (log_error "Failed to check for duplicate command usage: Bad Gateway")]
       (Returned false).
Proof.
  apply (fetch_failure_policies (comment_event "alice" "/hold")
           (mkComment "alice" "/hold") 7 bad_gateway).
  - reflexivity.
  - discriminate.
  - reflexivity.
  - discriminate.
  - discriminate.
Defined.

Lemma duplicate_iff_earlier_same_comment_witness :
  exists isDuplicate : bool,
    exec (checkDuplicateCommand (comment_event "alice" "/approve") "alice" "/approve")
      [EvCall (issues_listComments repo7 7)
              (inl [mkComment "alice" "/approve"; mkComment "alice" "/approve"])]
      (Returned isDuplicate) /\
    (isDuplicate = true <->
     exists i comment,
       i < 1 /\
       nth_error [mkComment "alice" "/approve"; mkComment "alice" "/approve"] i
         = Some comment /\
       comment_user_login comment = "alice" /\
       comment_body comment = "/approve").
Proof.
  exact (duplicate_iff_earlier_same_comment (comment_event "alice" "/approve") 7
           [mkComment "alice" "/approve"] (mkComment "alice" "/approve") eq_refl).
Defined.

(** * Further properties of [index.js] *)

(** ** The shape of the parts *)

Lemma checkMaintainerOrBot_shape (context : Context) (username : string) t o :
  exec (checkMaintainerOrBot context username) t o ->
  ((username = botUsername \/
    username = repository_owner_login (payload_repository context)) /\
   t = [EvLog (console_log username)] /\ o = Returned true) \/
  (username <> botUsername /\
   username <> repository_owner_login (payload_repository context) /\
   exists fetched,
     t = [EvLog (console_log username);
          EvCall (repos_listCollaborators (context_repo context) "direct") fetched;
          EvLog (match fetched with
                 | inl collaborators => console_log_collaborators collaborators
                 | inr error =>
                     log_error ("Failed to check maintainer status: " ++ message error)
                 end)] /\
     o = Returned
           (match fetched with
            | inl collaborators =>
                existsb (fun collaborator => collaborator_login collaborator =? username)
                        collaborators
            | inr _ => false
            end)).
Proof.
  unfold checkMaintainerOrBot. intros H.
  cbn [exec bind log] in H. destruct H as (t' & -> & H).
  destruct ((username =? botUsername) ||
            (username =? repository_owner_login (payload_repository context)))
    eqn:E.
  - exec_cases H. left. split; [| auto].
    apply orb_true_iff in E. destruct E as [E | E]; apply String.eqb_eq in E; auto.
  - apply orb_false_iff in E. destruct E as [Eb Eo].
    apply String.eqb_neq in Eb, Eo. right. split; [exact Eb |]. split; [exact Eo |].
    exec_cases H.
    + eexists (inl _). split; reflexivity.
    + eexists (inr _). split; reflexivity.
Qed.

Lemma checkDuplicateCommand_shape
    (context : Context) (commenter commentBody : string) t o :
  exec (checkDuplicateCommand context commenter commentBody) t o ->
  (payload_issue context = None /\ o = Returned false /\
   t = [EvLog (log_error ("Failed to check for duplicate command usage: " ++
                          message undefined_number))]) \/
  exists issue_number fetched,
    payload_issue context = Some issue_number /\
    t = EvCall (issues_listComments (context_repo context) issue_number) fetched ::
        match fetched with
        | inl _ => []
        | inr error =>
            [EvLog (log_error ("Failed to check for duplicate command usage: " ++
                               message error))]
        end /\
    o = Returned
          (match fetched with
           | inl comments =>
               some_idx (same_command_earlier comments commenter commentBody) comments
           | inr _ => false
           end).
Proof.
  unfold checkDuplicateCommand. intros H.
  destruct (payload_issue context) as [n |].
  - right. exists n. exec_cases H.
    + eexists (inl _). auto.
    + eexists (inr _). auto.
  - left. exec_cases H. auto.
Qed.

(** The three [if]s run the handler of the command, or nothing. *)
Lemma execute_command_inv context commentBody prNumber commenter t o :
  exec (execute_command context commentBody prNumber commenter) t o ->
  (commentBody = "/approve" /\ exec (approvePR context prNumber commenter) t o) \/
  (commentBody = "/hold" /\ exec (holdPR context prNumber) t o) \/
  (commentBody = "/unhold" /\ exec (unholdPR context prNumber) t o) \/
  (commentBody <> "/approve" /\ commentBody <> "/hold" /\ commentBody <> "/unhold" /\
   t = [] /\ o = Returned tt).
Proof.
  unfold execute_command. intros H.
  destruct (string_dec commentBody "/approve") as [-> | Ea].
  { left. split; [reflexivity |].
    cbn [String.eqb Ascii.eqb Bool.eqb when] in H. apply exec_bind in H.
    destruct H as [(e & H & ->) | ([] & t1 & t2 & H1 & H2 & ->)]; [exact H |].
    cbn in H2. destruct H2 as [-> ->]. rewrite app_nil_r. exact H1. }
  destruct (string_dec commentBody "/hold") as [-> | Eh].
  { right; left. split; [reflexivity |].
    cbn [String.eqb Ascii.eqb Bool.eqb when bind] in H. apply exec_bind in H.
    destruct H as [(e & H & ->) | ([] & t1 & t2 & H1 & H2 & ->)]; [exact H |].
    cbn in H2. destruct H2 as [-> ->]. rewrite app_nil_r. exact H1. }
  destruct (string_dec commentBody "/unhold") as [-> | Eu].
  { right; right; left. split; [reflexivity |].
    cbn [String.eqb Ascii.eqb Bool.eqb when bind] in H. exact H. }
  right; right; right.
  pose proof Ea as Ea'. pose proof Eh as Eh'. pose proof Eu as Eu'.
  apply String.eqb_neq in Ea', Eh', Eu'. rewrite Ea', Eh', Eu' in H.
  cbn in H. destruct H as [-> ->]. auto.
Qed.

(** Every execution of [handlePRCommands] is one of the six ways. *)
Lemma handlePRCommands_invocation (context : Context) t o :
  exec (handlePRCommands context) t o -> invocation context t o.
Proof.
  unfold handlePRCommands, payload_commentBody. cbv zeta. intros H.
  destruct (payload_comment context) as [comment |] eqn:Hc;
    [| destruct H as [-> ->]; apply inv_no_comment; exact Hc].
  destruct (payload_issue context) as [prNumber |] eqn:Hi;
    [| destruct H as [-> ->]; apply (inv_filtered context comment); auto].
  destruct (comment_body comment =? "") eqn:Hbody.
  { destruct H as [-> ->]. apply String.eqb_eq in Hbody.
    apply (inv_filtered context comment); auto. }
  destruct (prNumber =? 0)%N eqn:Hn.
  { destruct H as [-> ->]. apply N.eqb_eq in Hn. subst prNumber.
    apply (inv_filtered context comment); auto. }
  apply String.eqb_neq in Hbody. apply N.eqb_neq in Hn.
  assert (accepted context comment prNumber) as Hacc by (unfold accepted; auto).
  cbn [orb] in H.
  destruct (comment_user_login comment =? botUsername) eqn:Hbot.
  { apply String.eqb_eq in Hbot. exec_cases H.
    apply (inv_own_comment context comment prNumber); assumption. }
  apply String.eqb_neq in Hbot.
  apply exec_bind in H.
  destruct H as [(e & H & ->) | (isMaintainer & t_auth & t1 & Hauth & H & ->)].
  { apply checkMaintainerOrBot_shape in H.
    destruct H as [(_ & _ & H) | (_ & _ & f & _ & H)]; discriminate H. }
  destruct isMaintainer; cbn [negb] in H.
  - apply exec_bind in H.
    destruct H as [(e & H & ->) | (isDuplicate & t_dup & t2 & Hdup & H & ->)].
    { apply checkDuplicateCommand_shape in H.
      destruct H as [(_ & H & _) | (n & f & _ & _ & H)]; discriminate H. }
    destruct isDuplicate.
    + unfold createComment, context_issue in H. rewrite Hi in H.
      apply exec_await in H. destruct H as (r & -> & ->).
      apply (inv_duplicate context comment prNumber); assumption.
    + apply (inv_command context comment prNumber); assumption.
  - unfold createComment, context_issue in H. rewrite Hi in H.
    apply exec_await in H. destruct H as (r & -> & ->).
    apply (inv_denied context comment prNumber); assumption.
Qed.

(** ** The two checks *)

(** [checkMaintainerOrBot] always answers: it never rejects and never
    writes.  The bot and the owner are let through without a fetch;
    anybody else is let through exactly when the collaborator fetch is
    fulfilled with a list that has their login. *)
Theorem checkMaintainerOrBot_decides (context : Context) (username : string) t o :
  exec (checkMaintainerOrBot context username) t o ->
  exists isMaintainer : bool,
    o = Returned isMaintainer /\
    Forall (fun e => is_mutation e = false /\ in_handler e = false) t /\
    (username = botUsername \/
     username = repository_owner_login (payload_repository context) ->
     t = [EvLog (console_log username)] /\ isMaintainer = true) /\
    (isMaintainer = true <->
     username = botUsername \/
     username = repository_owner_login (payload_repository context) \/
     exists collaborators,
       In (EvCall (repos_listCollaborators (context_repo context) "direct")
                  (inl collaborators)) t /\
       In username (map collaborator_login collaborators)).
Proof.
  unfold checkMaintainerOrBot. intros H.
  cbn [exec bind log] in H. destruct H as (t' & -> & H).
  destruct ((username =? botUsername) ||
            (username =? repository_owner_login (payload_repository context)))
    eqn:E.
  - exec_cases H. exists true. split; [reflexivity |].
    split; [repeat constructor |]. split; [auto |].
    split; [intros _ | reflexivity].
    apply orb_true_iff in E. destruct E as [E | E]; apply String.eqb_eq in E; auto.
  - apply orb_false_iff in E. destruct E as [Eb Eo].
    apply String.eqb_neq in Eb, Eo.
    exec_cases H; eexists; (split; [reflexivity |]);
      (split; [repeat constructor |]);
      (split; [intros [? | ?]; contradiction |]).
    + rewrite existsb_exists. split.
      * intros (c & Hin & Hc). apply String.eqb_eq in Hc.
        right; right. eexists. split; [simpl; eauto |].
        apply in_map_iff. eauto.
      * intros [? | [? | (cs & Hin & Hu)]]; try contradiction.
        simpl in Hin. destruct Hin as [Hin | [Hin | [Hin | []]]];
          try discriminate Hin.
        apply EvCall_inj in Hin. injection Hin as <-.
        apply in_map_iff in Hu. destruct Hu as (c & Hc & Hu).
        exists c. split; [exact Hu | apply String.eqb_eq; exact Hc].
    + split; [discriminate |].
      intros [? | [? | (cs & Hin & _)]]; try contradiction.
      simpl in Hin. destruct Hin as [Hin | [Hin | [Hin | []]]];
        discriminate Hin.
Qed.

(** [checkDuplicateCommand] always answers as well, and reads only: its
    one call is [issues.listComments], and a rejected fetch is logged and
    answered with [false].  On an event without [issue] it makes no call
    at all: the [TypeError] of [payload.issue.number] is caught like a
    failed fetch. *)
Theorem checkDuplicateCommand_decides
    (context : Context) (commenter commentBody : string) t o :
  exec (checkDuplicateCommand context commenter commentBody) t o ->
  exists isDuplicate : bool,
    o = Returned isDuplicate /\
    Forall (fun e => is_mutation e = false /\ in_handler e = false) t /\
    (payload_issue context = None ->
     isDuplicate = false /\
     t = [EvLog (log_error ("Failed to check for duplicate command usage: " ++
                            "Cannot read properties of undefined (reading 'number')"))]) /\
    (forall issue_number, payload_issue context = Some issue_number ->
     exists fetched,
       t = EvCall (issues_listComments (context_repo context) issue_number) fetched ::
           match fetched with
           | inl _ => []
           | inr error =>
               [EvLog (log_error ("Failed to check for duplicate command usage: " ++
                                  message error))]
           end /\
       isDuplicate =
         match fetched with
         | inl comments =>
             some_idx (same_command_earlier comments commenter commentBody) comments
         | inr _ => false
         end).
Proof.
  unfold checkDuplicateCommand. intros H.
  destruct (payload_issue context) as [n |].
  - exec_cases H; eexists; (split; [reflexivity |]);
      (split; [repeat constructor |]); (split; [discriminate |]);
      intros m Hm; injection Hm as <-.
    + eexists (inl _). split; reflexivity.
    + eexists (inr _). split; reflexivity.
  - exec_cases H. exists false. split; [reflexivity |].
    split; [repeat constructor |]. split; [auto | discriminate].
Qed.

(** [invocation_cases H] splits [H : exec (handlePRCommands context) t o]
    into the six ways and identifies their comment with the one of the
    payload. *)
Ltac same_comment :=
  repeat match goal with
         | Hacc : accepted _ _ _ |- _ =>
             let Hc := fresh "Hc" in
             let Hb := fresh "Hbody" in
             let Hi := fresh "Hi" in
             let Hn := fresh "Hn" in
             destruct Hacc as (Hc & Hb & Hi & Hn)
         | H1 : payload_comment ?c = Some ?a, H2 : payload_comment ?c = Some ?b |- _ =>
             rewrite H1 in H2; injection H2 as ->
         | H1 : payload_comment ?c = Some _, H2 : payload_comment ?c = None |- _ =>
             rewrite H1 in H2; discriminate H2
         | H1 : payload_issue ?c = Some ?a, H2 : payload_issue ?c = Some ?b |- _ =>
             rewrite H1 in H2; injection H2 as ->
         | H1 : payload_issue ?c = Some _, H2 : payload_issue ?c = None |- _ =>
             rewrite H1 in H2; discriminate H2
         end.

Ltac invocation_cases H :=
  apply handlePRCommands_invocation in H; inversion H; subst; clear H; same_comment.

(** Closes the ways that an accepted comment of somebody else excludes. *)
Ltac refute_ignored :=
  try solve [ exfalso;
              match goal with
              | H : _ = "" \/ _ \/ _ |- _ => destruct H as [? | [? | ?]]; congruence
              end
            | contradiction ].

(** ** Events that are ignored *)

(** A comment with an empty body, an event without issue number or with
    number 0, and a comment written by the bot itself: no call reaches the
    platform and the handler returns. *)
Theorem ignored_events_make_no_call (context : Context) (comment : IssueComment) t o :
  payload_comment context = Some comment ->
  comment_body comment = "" \/ payload_issue context = None \/
    payload_issue context = Some 0%N \/ comment_user_login comment = botUsername ->
  exec (handlePRCommands context) t o ->
  Forall (fun e => is_call e = false) t /\ o = Returned tt.
Proof.
  intros Hcomment Hignored H. invocation_cases H;
    try (split; [repeat constructor | reflexivity]);
    destruct Hignored as [E | [E | [E | E]]];
    try contradiction; try congruence.
Qed.

(** ** What the handlers call *)

Ltac refute_threshold :=
  try match goal with
      | E : (MIN_REQUIRED_APPROVALS <=? approvalCount ?r)%nat = false |- _ =>
          rewrite threshold_met in E; discriminate E
      end.

(** [handler_cases H] goes through every execution of every handler, for
    [H : exec (execute_command context body n who) t o]. *)
Ltac handler_cases H :=
  let Hcmd := fresh "Hcmd" in
  apply execute_command_inv in H;
  destruct H as [(Hcmd & H) | [(Hcmd & H) | [(Hcmd & H) | (? & ? & ? & -> & ->)]]];
  [ unfold approvePR, merge_if_approved in H; exec_cases H; refute_threshold
  | unfold holdPR in H; exec_cases H
  | unfold unholdPR in H; exec_cases H
  | ].

(** The handlers call none of the two fetches of the checks. *)
Lemma handler_events context commentBody prNumber commenter t o :
  exec (execute_command context commentBody prNumber commenter) t o ->
  Forall (fun e => is_call e = true -> is_mutation e || in_handler e = true) t.
Proof.
  intros H. handler_cases H; repeat constructor;
    cbn; intros; first [reflexivity | discriminate].
Qed.

Lemma listComments_not_in_handler context commentBody prNumber commenter t o r n fetched :
  exec (execute_command context commentBody prNumber commenter) t o ->
  ~ In (EvCall (issues_listComments r n) fetched) t.
Proof.
  intros H Hin. apply handler_events in H.
  rewrite Forall_forall in H. specialize (H _ Hin eq_refl). discriminate H.
Qed.

Lemma listCollaborators_not_in_handler
    context commentBody prNumber commenter t o r a fetched :
  exec (execute_command context commentBody prNumber commenter) t o ->
  ~ In (EvCall (repos_listCollaborators r a) fetched) t.
Proof.
  intros H Hin. apply handler_events in H.
  rewrite Forall_forall in H. specialize (H _ Hin eq_refl). discriminate H.
Qed.

(** ** Rejected commands *)

(** Somebody who is neither the bot nor the owner, and whom no fulfilled
    collaborator fetch of the invocation lists, gets the permission
    comment whatever the comment says: after the fetch that comment is the
    only call, and the handler ends with it. *)
Theorem unauthorized_is_rejected
    (context : Context) (comment : IssueComment) (prNumber : N) t o :
  accepted context comment prNumber ->
  comment_user_login comment <> botUsername ->
  comment_user_login comment <> repository_owner_login (payload_repository context) ->
  (forall collaborators,
     In (EvCall (repos_listCollaborators (context_repo context) "direct")
                (inl collaborators)) t ->
     ~ In (comment_user_login comment) (map collaborator_login collaborators)) ->
  exec (handlePRCommands context) t o ->
  exists fetched r,
    t = [EvLog (console_log (comment_user_login comment));
         EvCall (repos_listCollaborators (context_repo context) "direct") fetched;
         EvLog (match fetched with
                | inl collaborators => console_log_collaborators collaborators
                | inr error =>
                    log_error ("Failed to check maintainer status: " ++ message error)
                end);
         EvCall (issues_createComment (context_repo context) (Some prNumber)
                   (denied_msg (comment_user_login comment))) r] /\
    o = settle r.
Proof.
  intros Hacc Hbot Howner Hnot H.
  assert (forall t_auth rest,
            t = t_auth ++ rest ->
            exec (checkMaintainerOrBot context (comment_user_login comment))
                 t_auth (Returned true) -> False) as Hfalse.
  { intros t_auth rest -> Hauth. apply checkMaintainerOrBot_shape in Hauth.
    destruct Hauth as [([E | E] & _) | (_ & _ & fetched & -> & E)];
      try contradiction.
    destruct fetched as [collaborators | error]; [| discriminate E].
    injection E as E. symmetry in E. apply existsb_exists in E.
    destruct E as (c & Hin & Hc). apply String.eqb_eq in Hc.
    apply (Hnot collaborators).
    - simpl. auto.
    - apply in_map_iff. eauto. }
  invocation_cases H; refute_ignored.
  - match goal with
    | Hauth : exec (checkMaintainerOrBot _ _) _ _ |- _ =>
        apply checkMaintainerOrBot_shape in Hauth;
        destruct Hauth as [(_ & _ & E) | (_ & _ & fetched & -> & _)];
        [discriminate E |]
    end.
    exists fetched, r. auto.
  - exfalso. eapply Hfalse; eauto.
  - exfalso. eapply Hfalse; eauto.
Qed.

(** When the fetched thread holds, below its last comment, a comment of
    the same author with the same body, the command is answered with the
    duplicate comment: that comment is the last call, and no handler has
    run. *)
Theorem duplicate_is_rejected
    (context : Context) (comment : IssueComment) (prNumber : N)
    (comments : list IssueComment) t o :
  accepted context comment prNumber ->
  comment_user_login comment <> botUsername ->
  In (EvCall (issues_listComments (context_repo context) prNumber) (inl comments)) t ->
  (exists i earlier,
     i < List.length comments - 1 /\
     nth_error comments i = Some earlier /\
     comment_user_login earlier = comment_user_login comment /\
     comment_body earlier = comment_body comment) ->
  exec (handlePRCommands context) t o ->
  exists t_auth r,
    exec (checkMaintainerOrBot context (comment_user_login comment))
         t_auth (Returned true) /\
    t = t_auth ++
        [EvCall (issues_listComments (context_repo context) prNumber) (inl comments);
         EvCall (issues_createComment (context_repo context) (Some prNumber)
                   (duplicate_msg (comment_user_login comment))) r] /\
    o = settle r /\
    Forall (fun e => in_handler e = false) t.
Proof.
  intros Hacc Hbot Hin Hearlier H.
  apply some_same_command_earlier in Hearlier.
  assert (forall t_auth o',
            exec (checkMaintainerOrBot context (comment_user_login comment)) t_auth o' ->
            ~ In (EvCall (issues_listComments (context_repo context) prNumber)
                         (inl comments)) t_auth /\
            Forall (fun e => in_handler e = false) t_auth) as Hauth_events.
  { intros t_auth o' Hauth. apply checkMaintainerOrBot_shape in Hauth.
    destruct Hauth as [(_ & -> & _) | (_ & _ & fetched & -> & _)].
    - split; [| repeat constructor]. intros [E | []]. discriminate E.
    - split; [| repeat constructor]. intros [E | [E | [E | []]]]; discriminate E. }
  assert (forall t_dup b,
            exec (checkDuplicateCommand context (comment_user_login comment)
                    (comment_body comment)) t_dup (Returned b) ->
            In (EvCall (issues_listComments (context_repo context) prNumber)
                       (inl comments)) t_dup ->
            b = true /\
            t_dup = [EvCall (issues_listComments (context_repo context) prNumber)
                            (inl comments)]) as Hdup_events.
  { intros t_dup b Hdup Hin'. apply checkDuplicateCommand_shape in Hdup.
    destruct Hdup as [(_ & _ & ->) | (n & fetched & Hn & -> & E)].
    - destruct Hin' as [E | []]. discriminate E.
    - destruct Hacc as (_ & _ & Hi & _). rewrite Hi in Hn. injection Hn as <-.
      assert (fetched = inl comments) as ->.
      { destruct Hin' as [E' | Hin'].
        - apply EvCall_inj in E'. exact E'.
        - destruct fetched; [destruct Hin' |].
          destruct Hin' as [E' | []]. discriminate E'. }
      injection E as ->. auto. }
  invocation_cases H; refute_ignored.
  - exfalso. apply in_app_or in Hin. destruct Hin as [Hin | [E | []]].
    + eapply Hauth_events; eauto.
    + discriminate E.
  - apply in_app_or in Hin. destruct Hin as [Hin | Hin];
      [exfalso; eapply Hauth_events; eauto |].
    apply in_app_or in Hin. destruct Hin as [Hin | [E | []]]; [| discriminate E].
    match goal with
    | Hdup : exec (checkDuplicateCommand _ _ _) _ _ |- _ =>
        destruct (Hdup_events _ _ Hdup Hin) as [_ ->]
    end.
    exists t_auth, r. split; [assumption |]. split; [reflexivity |].
    split; [reflexivity |].
    apply Forall_app. split; [eapply Hauth_events; eauto | repeat constructor].
  - exfalso. apply in_app_or in Hin. destruct Hin as [Hin | Hin];
      [eapply Hauth_events; eauto |].
    apply in_app_or in Hin. destruct Hin as [Hin | Hin].
    + match goal with
      | Hdup : exec (checkDuplicateCommand _ _ _) _ _ |- _ =>
          destruct (Hdup_events _ _ Hdup Hin) as [E _]; discriminate E
      end.
    + eapply listComments_not_in_handler; eauto.
Qed.

(** ** Failures inside [approvePR] *)

(** Finds the event of [Hin : In e t] in an explicit trace [t]. *)
Ltac find_event Hin :=
  simpl in Hin;
  repeat (destruct Hin as [Hin | Hin]; [try discriminate Hin |]);
  try contradiction.

Ltac destruct_units :=
  repeat match goal with
         | u : unit |- _ => destruct u
         | u : reply (issues_createComment _ _ _) |- _ => destruct u
         | u : reply (pulls_createReview _ _ _ _) |- _ => destruct u
         | u : reply (pulls_merge _ _) |- _ => destruct u
         | u : reply (issues_addLabels _ _ _) |- _ => destruct u
         | u : reply (issues_removeLabel _ _ _) |- _ => destruct u
         end.

(** When the platform rejects [pulls.createReview], the error text is
    posted as a comment and [approvePR] ends there: no merge is tried and
    nothing is thrown, unless that comment is rejected too. *)
Theorem review_failure_is_reported
    (context : Context) (prNumber : N) (commenter : string) (error : exn) t o :
  exec (approvePR context prNumber commenter) t o ->
  In (EvCall (pulls_createReview (context_repo context) prNumber
                "APPROVE" "Approved via /approve command.") (inr error)) t ->
  exists pr reviews r,
    t = [EvCall (pulls_get (context_repo context) prNumber) (inl pr);
         EvCall (pulls_listReviews (context_repo context) prNumber) (inl reviews);
         EvCall (pulls_createReview (context_repo context) prNumber
                   "APPROVE" "Approved via /approve command.") (inr error);
         EvCall (issues_createComment (context_repo context) (context_issue context)
                   ("❌ Failed to create an approval review: " ++ message error)) r] /\
    o = settle r.
Proof.
  unfold approvePR, merge_if_approved. intros H Hin.
  exec_cases H; refute_threshold; find_event Hin.
  all: apply EvCall_inj in Hin; injection Hin as <-; destruct_units; eauto 6.
Qed.

(** When the platform rejects [pulls.merge], the approval review stays as
    it was created: the only call that follows is the comment with the
    error text. *)
Theorem merge_failure_is_reported
    (context : Context) (prNumber : N) (commenter : string) (error : exn) t o :
  exec (approvePR context prNumber commenter) t o ->
  In (EvCall (pulls_merge (context_repo context) prNumber) (inr error)) t ->
  exists pr reviews r,
    t = [EvCall (pulls_get (context_repo context) prNumber) (inl pr);
         EvCall (pulls_listReviews (context_repo context) prNumber) (inl reviews);
         EvCall (pulls_createReview (context_repo context) prNumber
                   "APPROVE" "Approved via /approve command.") (inl tt);
         EvLog (log_info ("Approval review created for PR #" ++ show_N prNumber ++
                          " via /approve command."));
         EvCall (pulls_merge (context_repo context) prNumber) (inr error);
         EvCall (issues_createComment (context_repo context) (context_issue context)
                   ("❌ Failed to merge the pull request: " ++ message error)) r] /\
    o = settle r.
Proof.
  unfold approvePR, merge_if_approved. intros H Hin.
  exec_cases H; refute_threshold; find_event Hin.
  all: apply EvCall_inj in Hin; injection Hin as <-; destruct_units; eauto 6.
Qed.

(** The confirmation comment stands inside the [try] of the merge: when
    the merge went through and the platform rejects the confirmation, the
    [catch] posts "Failed to merge the pull request" with the error of the
    comment. *)
Theorem confirmation_failure_is_reported_as_merge_failure
    (context : Context) (prNumber : N) (commenter : string) (error : exn) t o :
  exec (approvePR context prNumber commenter) t o ->
  In (EvCall (issues_createComment (context_repo context) (context_issue context)
                (merged_msg prNumber)) (inr error)) t ->
  exists pr reviews r,
    t = [EvCall (pulls_get (context_repo context) prNumber) (inl pr);
         EvCall (pulls_listReviews (context_repo context) prNumber) (inl reviews);
         EvCall (pulls_createReview (context_repo context) prNumber
                   "APPROVE" "Approved via /approve command.") (inl tt);
         EvLog (log_info ("Approval review created for PR #" ++ show_N prNumber ++
                          " via /approve command."));
         EvCall (pulls_merge (context_repo context) prNumber) (inl tt);
         EvCall (issues_createComment (context_repo context) (context_issue context)
                   (merged_msg prNumber)) (inr error);
         EvCall (issues_createComment (context_repo context) (context_issue context)
                   ("❌ Failed to merge the pull request: " ++ message error)) r] /\
    o = settle r.
Proof.
  unfold approvePR, merge_if_approved. intros H Hin.
  exec_cases H; refute_threshold; find_event Hin.
  all: apply EvCall_inj in Hin; injection Hin as <-; destruct_units; eauto 6.
Qed.

(** ** Whole invocations *)



Lemma count_app f t1 t2 : count f (t1 ++ t2) = count f t1 + count f t2.
Proof. unfold count. rewrite filter_app, length_app. reflexivity. Qed.

(** Replaces the traces of the two checks by their shapes. *)
Ltac open_checks :=
  repeat match goal with
         | H : exec (checkMaintainerOrBot _ _) _ _ |- _ =>
             apply checkMaintainerOrBot_shape in H;
             destruct H as [(? & -> & ?) | (? & ? & [? | ?] & -> & ?)]
         | H : exec (checkDuplicateCommand _ _ _) _ _ |- _ =>
             apply checkDuplicateCommand_shape in H;
             destruct H as [(? & ? & ->) | (? & [? | ?] & ? & -> & ?)]
         end;
  same_comment;
  try match goal with
      | E : Returned true = Returned false |- _ => discriminate E
      | E : Returned false = Returned true |- _ => discriminate E
      end.



Lemma handler_review_guard context commentBody prNumber commenter t o :
  exec (execute_command context commentBody prNumber commenter) t o ->
  existsb is_createReview t = true ->
  commentBody = "/approve" /\
  count is_createReview t = 1 /\
  exists pr reviews,
    In (EvCall (pulls_get (context_repo context) prNumber) (inl pr)) t /\
    In (EvCall (pulls_listReviews (context_repo context) prNumber) (inl reviews)) t /\
    isHeld pr = false /\ pr_draft pr = false /\
    hasAlreadyApproved reviews commenter = false.
Proof.
  intros H E. handler_cases H; try discriminate E;
    (split; [assumption |]); (split; [reflexivity |]);
    do 2 eexists; (split; [simpl; eauto |]); (split; [simpl; eauto |]); auto.
Qed.

(** [pulls.createReview] is called only at the end of the whole chain: the
    comment is [/approve], its author is not the bot and is the owner or a
    collaborator listed by the fetch, the thread (if it could be fetched)
    holds no earlier identical comment, and the pull request fetched in
    this invocation has no [hold] label, is no draft and has no approved
    review by the author.  It is called once. *)
Theorem review_creation_is_guarded (context : Context) t o :
  exec (handlePRCommands context) t o ->
  existsb is_createReview t = true ->
  exists comment prNumber pr reviews fetched,
    accepted context comment prNumber /\
    comment_body comment = "/approve" /\
    comment_user_login comment <> botUsername /\
    (comment_user_login comment = repository_owner_login (payload_repository context) \/
     exists collaborators,
       In (EvCall (repos_listCollaborators (context_repo context) "direct")
                  (inl collaborators)) t /\
       In (comment_user_login comment) (map collaborator_login collaborators)) /\
    In (EvCall (issues_listComments (context_repo context) prNumber) fetched) t /\
    match fetched with
    | inl comments =>
        some_idx (same_command_earlier comments (comment_user_login comment)
                    "/approve") comments = false
    | inr _ => True
    end /\
    In (EvCall (pulls_get (context_repo context) prNumber) (inl pr)) t /\
    In (EvCall (pulls_listReviews (context_repo context) prNumber) (inl reviews)) t /\
    isHeld pr = false /\ pr_draft pr = false /\
    hasAlreadyApproved reviews (comment_user_login comment) = false /\
    count is_createReview t = 1.
Proof.
  intros H E. apply handlePRCommands_invocation in H.
  destruct H as [Hc | comment Hc Hf | comment n Hacc Hbot | comment n t_auth r Hacc Hbot Hauth
                | comment n t_auth t_dup r Hacc Hbot Hauth Hdup
                | comment n t_auth t_dup t_cmd o Hacc Hbot Hauth Hdup Hcmd];
    try discriminate E.
  - exfalso. open_checks; discriminate E.
  - exfalso. open_checks; discriminate E.
  - assert (existsb is_createReview t_cmd = true) as Ecmd.
    { rewrite !existsb_app in E. pose proof Hacc as Hacc'. open_checks;
        simpl in E; try discriminate E; exact E. }
    destruct (handler_review_guard _ _ _ _ _ _ Hcmd Ecmd)
      as (Hbody & Hcount & pr & reviews & Hget & Hlist & Hheld & Hdraft & Happroved).
    rewrite Hbody in *.
    assert (count is_createReview (t_auth ++ t_dup ++ t_cmd) = 1) as Hone.
    { rewrite !count_app, Hcount. pose proof Hacc as Hacc'. open_checks; reflexivity. }
    assert (exists fetched,
              In (EvCall (issues_listComments (context_repo context) n) fetched) t_dup /\
              match fetched with
              | inl comments =>
                  some_idx (same_command_earlier comments (comment_user_login comment)
                              "/approve") comments = false
              | inr _ => True
              end) as (fetched & Hfetched & Hnodup).
    { pose proof Hacc as Hacc'. clear Hauth. open_checks.
      - eexists (inl _). split; [simpl; eauto |].
        match goal with
        | Hret : Returned false = Returned _ |- _ => injection Hret as <-
        end.
        reflexivity.
      - eexists (inr _). split; [simpl; eauto | exact I]. }
    assert (comment_user_login comment =
              repository_owner_login (payload_repository context) \/
            exists collaborators,
              In (EvCall (repos_listCollaborators (context_repo context) "direct")
                         (inl collaborators)) t_auth /\
              In (comment_user_login comment) (map collaborator_login collaborators))
      as Hallowed.
    { pose proof Hacc as Hacc'. clear Hdup. open_checks.
      - match goal with E : _ \/ _ |- _ => destruct E as [? | ?] end;
          [contradiction | auto].
      - right. eexists. split; [simpl; eauto |].
        match goal with
        | Hret : Returned true = Returned _ |- _ =>
            injection Hret as Hret; symmetry in Hret;
            apply existsb_exists in Hret;
            destruct Hret as (collaborator & Hlisted & Hlogin);
            apply String.eqb_eq in Hlogin; apply in_map_iff; eauto
        end. }
    exists comment, n, pr, reviews, fetched.
    split; [exact Hacc |]. split; [exact Hbody |]. split; [exact Hbot |].
    split.
    { destruct Hallowed as [? | (cs & Hin & Hu)]; [auto | right].
      exists cs. split; [apply in_or_app; auto | exact Hu]. }
    split; [apply in_or_app; right; apply in_or_app; auto |].
    split; [exact Hnodup |].
    split; [apply in_or_app; right; apply in_or_app; auto |].
    split; [apply in_or_app; right; apply in_or_app; auto |].
    auto.
Qed.

Ltac each_event := repeat first [apply Forall_nil | apply Forall_cons].

Lemma handler_addresses context commentBody prNumber commenter t o :
  exec (execute_command context commentBody prNumber commenter) t o ->
  context_issue context = Some prNumber ->
  addressed_to (context_repo context) prNumber t.
Proof.
  intros H Hi. unfold addressed_to.
  handler_cases H; each_event; cbn; auto.
Qed.

(** One invocation works on one pull request: every call it makes goes to
    the repository of the payload, and every call that names an issue or
    pull request names the one of the payload. *)
Theorem calls_address_the_event (context : Context) (prNumber : N) t o :
  payload_issue context = Some prNumber ->
  exec (handlePRCommands context) t o ->
  addressed_to (context_repo context) prNumber t.
Proof.
  intros Hi H.
  assert (context_issue context = Some prNumber) as Hissue
    by (unfold context_issue; rewrite Hi; reflexivity).
  apply handlePRCommands_invocation in H. unfold addressed_to.
  destruct H as [Hc | comment Hc Hf | comment n Hacc Hbot | comment n t_auth r Hacc Hbot Hauth
                | comment n t_auth t_dup r Hacc Hbot Hauth Hdup
                | comment n t_auth t_dup t_cmd o Hacc Hbot Hauth Hdup Hcmd];
    try (each_event; exact I).
  - open_checks; each_event; cbn; auto.
  - open_checks; each_event; cbn; auto.
  - apply Forall_app. split; [| apply Forall_app; split].
    + clear Hdup. open_checks; each_event; cbn; auto.
    + clear Hauth. open_checks; each_event; cbn; auto.
    + destruct Hacc as (_ & _ & Hn & _). rewrite Hi in Hn. injection Hn as <-.
      apply (handler_addresses _ _ _ _ _ _ Hcmd Hissue).
Qed.

Lemma handler_writes context commentBody prNumber commenter t o :
  exec (execute_command context commentBody prNumber commenter) t o ->
  (existsb is_createReview t = true \/ existsb is_merge t = true ->
   commentBody = "/approve") /\
  (existsb is_addLabels t = true -> commentBody = "/hold") /\
  (existsb is_removeLabel t = true -> commentBody = "/unhold") /\
  count is_createReview t <= 1 /\
  count is_merge t <= 1 /\
  count is_label_change t <= 1 /\
  (existsb is_merge t = true -> existsb review_created t = true).
Proof.
  intros H. handler_cases H;
    (split; [intros [E | E]; first [discriminate E | assumption] |]);
    (split; [intros E; first [discriminate E | assumption] |]);
    (split; [intros E; first [discriminate E | assumption] |]);
    cbn; repeat split; try lia; intros E; first [discriminate E | reflexivity].
Qed.

(** Each command does its own kind of writing, and at most once: a review
    is created or a merge tried only for [/approve], a label added only
    for [/hold] and removed only for [/unhold]; no invocation creates two
    reviews, merges twice or changes labels twice, and a merge is tried
    only when a review was created before it in the same invocation. *)
Theorem each_command_writes_its_own (context : Context) t o :
  exec (handlePRCommands context) t o ->
  (existsb is_createReview t = true \/ existsb is_merge t = true ->
   payload_commentBody context = "/approve") /\
  (existsb is_addLabels t = true -> payload_commentBody context = "/hold") /\
  (existsb is_removeLabel t = true -> payload_commentBody context = "/unhold") /\
  count is_createReview t <= 1 /\
  count is_merge t <= 1 /\
  count is_label_change t <= 1 /\
  (existsb is_merge t = true -> existsb review_created t = true).
Proof.
  intros H. apply handlePRCommands_invocation in H.
  assert (forall t', 
            (existsb is_createReview t' = false /\ existsb is_merge t' = false /\
             existsb is_addLabels t' = false /\ existsb is_removeLabel t' = false /\
             count is_createReview t' = 0 /\ count is_merge t' = 0 /\
             count is_label_change t' = 0) ->
            (existsb is_createReview t' = true \/ existsb is_merge t' = true ->
             payload_commentBody context = "/approve") /\
            (existsb is_addLabels t' = true -> payload_commentBody context = "/hold") /\
            (existsb is_removeLabel t' = true -> payload_commentBody context = "/unhold") /\
            count is_createReview t' <= 1 /\
            count is_merge t' <= 1 /\
            count is_label_change t' <= 1 /\
            (existsb is_merge t' = true -> existsb review_created t' = true)) as Hnone.
  { intros t' (E1 & E2 & E3 & E4 & -> & -> & ->). rewrite E1, E2, E3, E4.
    repeat split; try lia; try discriminate; intros [E | E]; discriminate E. }
  destruct H as [Hc | comment Hc Hf | comment n Hacc Hbot | comment n t_auth r Hacc Hbot Hauth
                | comment n t_auth t_dup r Hacc Hbot Hauth Hdup
                | comment n t_auth t_dup t_cmd o Hacc Hbot Hauth Hdup Hcmd];
    try (apply Hnone; repeat split; reflexivity).
  - apply Hnone. open_checks; repeat split; reflexivity.
  - apply Hnone. open_checks; repeat split; reflexivity.
  - pose proof (handler_writes _ _ _ _ _ _ Hcmd) as Hw.
    assert (payload_commentBody context = comment_body comment) as ->.
    { destruct Hacc as (Hc & _). unfold payload_commentBody. rewrite Hc. reflexivity. }
    assert (forall f,
              (f = is_createReview \/ f = is_merge \/ f = is_addLabels \/
               f = is_removeLabel \/ f = is_label_change \/ f = review_created) ->
              existsb f (t_auth ++ t_dup ++ t_cmd) = existsb f t_cmd /\
              count f (t_auth ++ t_dup ++ t_cmd) = count f t_cmd) as Hsame.
    { intros f Hf. rewrite !existsb_app, !count_app.
      pose proof Hacc as Hacc'.
      destruct Hf as [-> | [-> | [-> | [-> | [-> | ->]]]]];
        open_checks; split; reflexivity. }
    rewrite !(proj1 (Hsame is_createReview ltac:(auto))),
            !(proj1 (Hsame is_merge ltac:(auto))),
            !(proj1 (Hsame is_addLabels ltac:(auto 6))),
            !(proj1 (Hsame is_removeLabel ltac:(auto 6))),
            !(proj1 (Hsame review_created ltac:(auto 8))),
            !(proj2 (Hsame is_createReview ltac:(auto))),
            !(proj2 (Hsame is_merge ltac:(auto))),
            !(proj2 (Hsame is_label_change ltac:(auto 8))).
    exact Hw.
Qed.

(** ** [holdPR] and the choice of the handler *)

(** [holdPR] looks at nothing: its one call is [issues.addLabels] with the
    label [hold], whatever the state of the pull request.  It logs when
    the label was added, rejects when the call was rejected, and posts no
    comment either way. *)
Theorem hold_adds_the_label_only (context : Context) (prNumber : N) t o :
  exec (holdPR context prNumber) t o ->
  exists r,
    t = EvCall (issues_addLabels (context_repo context) prNumber ["hold"]) r ::
        match r with
        | inl _ => [EvLog (log_info ("PR #" ++ show_N prNumber ++
                                     " has been placed on hold."))]
        | inr _ => []
        end /\
    o = settle r /\
    count is_call t = 1 /\
    count is_createComment t = 0.
Proof.
  unfold holdPR. intros H. exec_cases H; destruct_units.
  - eexists (inl tt). repeat split.
  - eexists (inr _). repeat split.
Qed.

(** The three tests of the comment body run one handler at most: the body
    is one of the commands and the execution is that of its handler,
    exception included, or it is none and nothing happens. *)
Theorem execute_command_runs_one_handler
    (context : Context) (commentBody : string) (prNumber : N) (commenter : string) t o :
  exec (execute_command context commentBody prNumber commenter) t o <->
  (commentBody = "/approve" /\ exec (approvePR context prNumber commenter) t o) \/
  (commentBody = "/hold" /\ exec (holdPR context prNumber) t o) \/
  (commentBody = "/unhold" /\ exec (unholdPR context prNumber) t o) \/
  (commentBody <> "/approve" /\ commentBody <> "/hold" /\ commentBody <> "/unhold" /\
   t = [] /\ o = Returned tt).
Proof.
  split; [apply execute_command_inv |].
  intros [(-> & H) | [(-> & H) | [(-> & H) | (Ha & Hh & Hu & -> & ->)]]].
  - apply execute_command_approve, H.
  - apply execute_command_hold, H.
  - apply execute_command_unhold, H.
  - unfold execute_command. apply String.eqb_neq in Ha, Hh, Hu.
    rewrite Ha, Hh, Hu. cbn. auto.
Qed.

(** ** The further properties at the example events *)

Lemma own_comment_exec :
  exec (handlePRCommands (comment_event botUsername "/approve"))
       [EvLog (log_info "Ignoring comment from the bot itself to prevent infinite loop.")]
       (Returned tt).
Proof. exec_replay. Qed.

Lemma ignored_events_make_no_call_witness :
  Forall (fun e => is_call e = false)
    [EvLog (log_info "Ignoring comment from the bot itself to prevent infinite loop.")]
  /\ Returned tt = Returned tt.
Proof.
  apply (ignored_events_make_no_call (comment_event botUsername "/approve")
           (mkComment botUsername "/approve")).
  - reflexivity.
  - right; right; right. reflexivity.
  - exact own_comment_exec.
Defined.

Lemma alice_authorized_exec :
  exec (checkMaintainerOrBot (comment_event "alice" "/approve") "alice")
       alice_authorized (Returned true).
Proof. unfold alice_authorized. exec_replay. Qed.

Lemma checkMaintainerOrBot_decides_witness :
  exists isMaintainer : bool,
    Returned true = Returned isMaintainer /\
    Forall (fun e => is_mutation e = false /\ in_handler e = false) alice_authorized.
Proof.
  destruct (checkMaintainerOrBot_decides (comment_event "alice" "/approve") "alice"
              alice_authorized (Returned true) alice_authorized_exec)
    as (b & Hb & Hread & _).
  exists b. split; assumption.
Defined.

Lemma alice_twice_exec :
  exec (checkDuplicateCommand (comment_event "alice" "/approve") "alice" "/approve")
       [EvCall (issues_listComments repo7 7) (inl alice_twice)] (Returned true).
Proof. exec_replay. Qed.

Lemma checkDuplicateCommand_decides_witness :
  exists isDuplicate : bool,
    Returned true = Returned isDuplicate /\
    Forall (fun e => is_mutation e = false /\ in_handler e = false)
      [EvCall (issues_listComments repo7 7) (inl alice_twice)].
Proof.
  destruct (checkDuplicateCommand_decides (comment_event "alice" "/approve")
              "alice" "/approve"
              [EvCall (issues_listComments repo7 7) (inl alice_twice)]
              (Returned true) alice_twice_exec)
    as (b & Hb & Hread & _).
  exists b. split; assumption.
Defined.

Lemma accepted_comment_event who text :
  text <> "" -> accepted (comment_event who text) (mkComment who text) 7.
Proof. intros H. repeat split; [exact H | discriminate]. Qed.

Lemma unauthorized_is_rejected_witness :
  exists fetched r,
    lgtm_trace =
      [EvLog (console_log "mallory");
       EvCall (repos_listCollaborators repo7 "direct") fetched;
       EvLog (match fetched with
              | inl collaborators => console_log_collaborators collaborators
              | inr error =>
                  log_error ("Failed to check maintainer status: " ++ message error)
              end);
       EvCall (issues_createComment repo7 (Some 7%N) (denied_msg "mallory")) r] /\
    Returned tt = settle r.
Proof.
  apply (unauthorized_is_rejected (comment_event "mallory" "LGTM")
           (mkComment "mallory" "LGTM") 7 lgtm_trace (Returned tt)).
  - apply accepted_comment_event. discriminate.
  - discriminate.
  - discriminate.
  - intros collaborators Hin. unfold lgtm_trace in Hin. find_event Hin.
    apply EvCall_inj in Hin. injection Hin as <-. simpl. tauto.
  - exact lgtm_exec.
Defined.

Lemma alice_repeats_exec :
  exec (handlePRCommands (comment_event "alice" "/approve")) alice_repeats (Returned tt).
Proof. unfold alice_repeats, alice_authorized. exec_replay. Qed.

Lemma duplicate_is_rejected_witness :
  exists t_auth r,
    exec (checkMaintainerOrBot (comment_event "alice" "/approve") "alice")
         t_auth (Returned true) /\
    alice_repeats =
      t_auth ++
      [EvCall (issues_listComments repo7 7) (inl alice_twice);
       EvCall (issues_createComment repo7 (Some 7%N) (duplicate_msg "alice")) r] /\
    Returned tt = settle r /\
    Forall (fun e => in_handler e = false) alice_repeats.
Proof.
  apply (duplicate_is_rejected (comment_event "alice" "/approve")
           (mkComment "alice" "/approve") 7 alice_twice alice_repeats (Returned tt)).
  - apply accepted_comment_event. discriminate.
  - discriminate.
  - simpl. auto 6.
  - exists 0, (mkComment "alice" "/approve"). simpl. auto.
  - exact alice_repeats_exec.
Defined.

Lemma review_rejected_exec :
  exec (approvePR (comment_event "alice" "/approve") 7 "alice")
       review_rejected (Returned tt).
Proof. unfold review_rejected. exec_replay. Qed.

Lemma review_failure_is_reported_witness :
  exists pr reviews r,
    review_rejected =
      [EvCall (pulls_get repo7 7) (inl pr);
       EvCall (pulls_listReviews repo7 7) (inl reviews);
       EvCall (pulls_createReview repo7 7 "APPROVE" "Approved via /approve command.")
              (inr bad_gateway);
       EvCall (issues_createComment repo7 (Some 7%N)
                 ("❌ Failed to create an approval review: " ++ message bad_gateway)) r] /\
    Returned tt = settle r.
Proof.
  apply (review_failure_is_reported (comment_event "alice" "/approve") 7 "alice"
           bad_gateway review_rejected (Returned tt) review_rejected_exec).
  simpl. auto.
Defined.

Lemma merge_rejected_exec :
  exec (approvePR (comment_event "alice" "/approve") 7 "alice")
       merge_rejected (Returned tt).
Proof. unfold merge_rejected. exec_replay. Qed.

Lemma merge_failure_is_reported_witness :
  exists pr reviews r,
    merge_rejected =
      [EvCall (pulls_get repo7 7) (inl pr);
       EvCall (pulls_listReviews repo7 7) (inl reviews);
       EvCall (pulls_createReview repo7 7 "APPROVE" "Approved via /approve command.")
              (inl tt);
       EvLog (log_info ("Approval review created for PR #" ++ show_N 7 ++
                        " via /approve command."));
       EvCall (pulls_merge repo7 7) (inr bad_gateway);
       EvCall (issues_createComment repo7 (Some 7%N)
                 ("❌ Failed to merge the pull request: " ++ message bad_gateway)) r] /\
    Returned tt = settle r.
Proof.
  apply (merge_failure_is_reported (comment_event "alice" "/approve") 7 "alice"
           bad_gateway merge_rejected (Returned tt) merge_rejected_exec).
  simpl. auto 6.
Defined.

Lemma confirmation_rejected_exec :
  exec (approvePR (comment_event "alice" "/approve") 7 "alice")
       confirmation_rejected (Returned tt).
Proof. unfold confirmation_rejected. exec_replay. Qed.

Lemma confirmation_failure_is_reported_as_merge_failure_witness :
  exists pr reviews r,
    confirmation_rejected =
      [EvCall (pulls_get repo7 7) (inl pr);
       EvCall (pulls_listReviews repo7 7) (inl reviews);
       EvCall (pulls_createReview repo7 7 "APPROVE" "Approved via /approve command.")
              (inl tt);
       EvLog (log_info ("Approval review created for PR #" ++ show_N 7 ++
                        " via /approve command."));
       EvCall (pulls_merge repo7 7) (inl tt);
       EvCall (issues_createComment repo7 (Some 7%N) (merged_msg 7)) (inr bad_gateway);
       EvCall (issues_createComment repo7 (Some 7%N)
                 ("❌ Failed to merge the pull request: " ++ message bad_gateway)) r] /\
    Returned tt = settle r.
Proof.
  apply (confirmation_failure_is_reported_as_merge_failure
           (comment_event "alice" "/approve") 7 "alice"
           bad_gateway confirmation_rejected (Returned tt) confirmation_rejected_exec).
  simpl. auto 8.
Defined.



Lemma alice_approves_exec :
  exec (handlePRCommands (comment_event "alice" "/approve")) alice_approves (Returned tt).
Proof. unfold alice_approves, approved_and_merged. exec_replay. Qed.

Lemma review_creation_is_guarded_witness :
  exists comment prNumber pr reviews fetched,
    accepted (comment_event "alice" "/approve") comment prNumber /\
    comment_body comment = "/approve" /\
    comment_user_login comment <> botUsername /\
    (comment_user_login comment = "konstruct" \/
     exists collaborators,
       In (EvCall (repos_listCollaborators repo7 "direct") (inl collaborators))
          alice_approves /\
       In (comment_user_login comment) (map collaborator_login collaborators)) /\
    In (EvCall (issues_listComments repo7 prNumber) fetched) alice_approves /\
    match fetched with
    | inl comments =>
        some_idx (same_command_earlier comments (comment_user_login comment)
                    "/approve") comments = false
    | inr _ => True
    end /\
    In (EvCall (pulls_get repo7 prNumber) (inl pr)) alice_approves /\
    In (EvCall (pulls_listReviews repo7 prNumber) (inl reviews)) alice_approves /\
    isHeld pr = false /\ pr_draft pr = false /\
    hasAlreadyApproved reviews (comment_user_login comment) = false /\
    count is_createReview alice_approves = 1.
Proof.
  apply (review_creation_is_guarded (comment_event "alice" "/approve")
           alice_approves (Returned tt) alice_approves_exec).
  reflexivity.
Defined.

Lemma calls_address_the_event_witness :
  addressed_to repo7 7 alice_approves.
Proof.
  apply (calls_address_the_event (comment_event "alice" "/approve") 7
           alice_approves (Returned tt)).
  - reflexivity.
  - exact alice_approves_exec.
Defined.

Lemma each_command_writes_its_own_witness :
  count is_createReview alice_approves <= 1 /\
  count is_merge alice_approves <= 1 /\
  count is_label_change alice_approves <= 1.
Proof.
  destruct (each_command_writes_its_own (comment_event "alice" "/approve")
              alice_approves (Returned tt) alice_approves_exec)
    as (_ & _ & _ & H1 & H2 & H3 & _).
  repeat split; assumption.
Defined.

Lemma hold_added_exec :
  exec (holdPR (comment_event "konstruct" "/hold") 7) hold_added (Returned tt).
Proof. unfold hold_added. exec_replay. Qed.

Lemma hold_adds_the_label_only_witness :
  exists r,
    hold_added =
      EvCall (issues_addLabels repo7 7 ["hold"]) r ::
      match r with
      | inl _ => [EvLog (log_info ("PR #" ++ show_N 7 ++ " has been placed on hold."))]
      | inr _ => []
      end /\
    Returned tt = settle r /\
    count is_call hold_added = 1 /\
    count is_createComment hold_added = 0.
Proof.
  exact (hold_adds_the_label_only (comment_event "konstruct" "/hold") 7
           hold_added (Returned tt) hold_added_exec).
Defined.
